(** * flaskbb.auth.views: authentication, registration and password reset

    A shallow embedding of [flaskbb/auth/views.py].  The views are written
    in a small state-and-exception monad over a [World] (user store,
    current principal, clock and the chronological trace of calls made to
    the collaborators: HTTP posts, logger, flash, session start, reset-token
    service).  Code that the module imports but does not define (the [User]
    model and its storage, the form classes, [requests], [json], the token
    service, [gettext]) is a parameter, bundled in [Externals].  The views
    embedded are [login], [register], [forgot_password] and
    [reset_password], with the two remote client functions. *)

From Stdlib Require Import ZArith Ascii String List Bool.
From Stdlib Require Import SpecFloat.
From stdpp Require Import base option strings gmap.

Local Open Scope string_scope.
Local Open Scope Z_scope.

Local Set Warnings "-register-all".

(** ** Python values *)

(** The values that [json.loads] can produce, plus tuples (the return value
    of [auth_cabinet_user] is either a bare [False] or a pair). *)
Inductive pyval : Type :=
| VNone
| VBool (b : bool)
| VInt (z : Z)
| VFloat (f : spec_float)
| VStr (s : string)
| VList (l : list pyval)
| VTuple (l : list pyval)
| VDict (d : gmap string pyval).

(** Python truth value testing, as used by [if x], [not x] and [x or y]. *)
Definition truthy (v : pyval) : bool :=
  match v with
  | VNone => false
  | VBool b => b
  | VInt z => negb (z =? 0)
  | VFloat (S754_zero _) => false
  | VFloat _ => true
  | VStr s => negb (String.eqb s "")
  | VList l => match l with [] => false | _ => true end
  | VTuple l => match l with [] => false | _ => true end
  | VDict d => negb (bool_decide (d = ∅))
  end.

(** [a or b] *)
Definition py_or (a b : pyval) : pyval := if truthy a then a else b.

(** [v == 'OK'] for a literal string: only an equal [str] compares equal. *)
Definition eq_str (v : pyval) (lit : string) : bool :=
  match v with
  | VStr s => String.eqb s lit
  | _ => false
  end.

(** [d.get(k)] and [d.get(k, None)]: the field, or [None] when absent. *)
Definition dict_get (d : gmap string pyval) (k : string) : pyval :=
  default VNone (d !! k).

(** [{"login": username, "password": password}] *)
Definition auth_payload (username password : string) : pyval :=
  VDict {[ "login" := VStr username; "password" := VStr password ]}.

(** [{"login": username, "password": password, 'email': email}] *)
Definition register_payload (username password : string) (email : pyval)
  : pyval :=
  VDict {[ "login" := VStr username; "password" := VStr password;
           "email" := email ]}.

(** ** Exceptions and results *)

(** The exceptions the module itself can provoke, and [External] for
    whatever a collaborator raises (a connection error, an integrity error
    of the storage, ...). *)
Inductive exn : Type :=
| TypeError (msg : string)
| AttributeError (msg : string)
| ValueError (msg : string)
| External (name : string).

Inductive result (A : Type) : Type :=
| Ok (a : A)
| Raise (e : exn).
Arguments Ok {A} a.
Arguments Raise {A} e.

(** ** Data *)

(** The attributes of a [User] row that the views read or assign. The
    [password] attribute holds the value handed to the model; the model's
    property setter (hashing) is not part of this module. *)
Record User : Type := mkUser {
  username : string;
  email : pyval;
  password : string;
  date_joined : Z;
  primary_group_id : Z
}.

(** [current_user]: the flask-login proxy, never [None] itself. *)
Record Principal : Type := mkPrincipal {
  is_authenticated : bool;
  is_anonymous : bool;
  principal_username : string
}.

(** What [login_user(user)] makes of [current_user]. *)
Definition principal_of (u : User) : Principal :=
  {| is_authenticated := true; is_anonymous := false;
     principal_username := username u |}.

Record Response : Type := mkResponse {
  status_code : Z;
  text : string
}.

Inductive LogLevel : Type := LError | LWarning.

Inductive Url : Type :=
| url_for (endpoint : string) (kwargs : list (string * string))
| url_raw (target : string).

(** Calls made to the collaborators, in the order they happen. *)
Inductive Event : Type :=
| EvPost (url : string) (body : pyval)
| EvLog (lvl : LogLevel) (msg : string)
| EvFlash (msg category : string)
| EvLoginUser (u : User) (remember : pyval)
| EvSave (u : User)
| EvFormSave (u : User)
| EvMakeToken (u : User) (token : string)
| EvSendToken (u : User) (token : string)
| EvVerifyToken (u : User) (token : string).

(** ** Forms: the submitted field values and the verdict of
    [validate_on_submit()] for the request. *)

Record LoginForm : Type := mkLoginForm {
  login_valid : bool;
  login_data : string;
  password_data : string;
  remember_me_data : bool
}.

Record RegisterForm : Type := mkRegisterForm {
  register_recaptcha : bool;
  register_valid : bool;
  register_username : string;
  register_email : string;
  register_password : string;
  language_choices : list (string * string);
  language_default : string
}.

Record ForgotPasswordForm : Type := mkForgotPasswordForm {
  forgot_valid : bool;
  forgot_email : string
}.

Record ResetPasswordForm : Type := mkResetPasswordForm {
  reset_valid : bool;
  reset_token : string;
  reset_email : string;
  reset_password_data : string
}.

Inductive Form : Type :=
| FLogin (f : LoginForm)
| FRegister (f : RegisterForm)
| FForgot (f : ForgotPasswordForm)
| FReset (f : ResetPasswordForm).

(** What a view returns. *)
Inductive View : Type :=
| redirect (target : Url)
| render_template (name : string) (form : Form).

(** ** The world and the collaborators *)

(** The state a request runs in: the user store, [current_user], the reading
    of the clock ([datetime.utcnow()]) and the calls made so far. *)
Record World (Store : Type) : Type := mkWorld {
  store : Store;
  current_user : Principal;
  utcnow : Z;
  trace : list Event
}.
Arguments mkWorld {Store}.
Arguments store {Store}.
Arguments current_user {Store}.
Arguments utcnow {Store}.
Arguments trace {Store}.

(** Everything the module imports: configuration, [requests.post],
    [json.loads], [gettext], the [User] model (queries, [save], reset
    tokens) and [RegisterForm.save]. Calls that the error taxonomy names as
    failing (transport, parsing, storage writes) may raise.
    [profile_needs_username] is the one fact of the route table that the
    module depends on: whether the rule of the endpoint [user.profile] has
    the [username] variable that [register] passes to it. *)
Record Externals (Store : Type) : Type := mkExternals {
  CABINET_AUTH : string;
  CABINET_REGISTER : string;
  RECAPTCHA_ENABLED : bool;
  DEFAULT_LANGUAGE : string;
  available_languages : list (string * string);
  profile_needs_username : bool;
  gettext : string -> string;
  requests_post : string -> pyval -> result Response;
  json_loads : string -> result pyval;
  User_authenticate : Store -> string -> string -> option User * bool;
  filter_by_email_first : Store -> string -> option User;
  User_save : User -> Store -> result Store;
  RegisterForm_save : RegisterForm -> Store -> result (User * Store);
  make_reset_token : User -> Z -> string;
  verify_reset_token : User -> string -> Z -> bool * bool * pyval
}.
Arguments CABINET_AUTH {Store}.
Arguments CABINET_REGISTER {Store}.
Arguments RECAPTCHA_ENABLED {Store}.
Arguments DEFAULT_LANGUAGE {Store}.
Arguments available_languages {Store}.
Arguments profile_needs_username {Store}.
Arguments gettext {Store}.
Arguments requests_post {Store}.
Arguments json_loads {Store}.
Arguments User_authenticate {Store}.
Arguments filter_by_email_first {Store}.
Arguments User_save {Store}.
Arguments RegisterForm_save {Store}.
Arguments make_reset_token {Store}.
Arguments verify_reset_token {Store}.

(** ** The monad: state passing over [World], with exceptions. The world
    reached when an exception is raised is kept. *)
Module PyM.

Definition M (Store A : Type) : Type := World Store -> result A * World Store.

Definition ret {Store A} (a : A) : M Store A := fun w => (Ok a, w).

Definition raise {Store A} (e : exn) : M Store A := fun w => (Raise e, w).

Definition bind {Store A B} (m : M Store A) (k : A -> M Store B) : M Store B :=
  fun w =>
    match m w with
    | (Ok a, w') => k a w'
    | (Raise e, w') => (Raise e, w')
    end.

Definition lift {Store A} (r : result A) : M Store A := fun w => (r, w).

Definition emit {Store} (e : Event) : M Store unit :=
  fun w => (Ok tt, mkWorld (store w) (current_user w) (utcnow w)
                     (trace w ++ [e])%list).

Definition get_store {Store} : M Store Store := fun w => (Ok (store w), w).

Definition put_store {Store} (s : Store) : M Store unit :=
  fun w => (Ok tt, mkWorld s (current_user w) (utcnow w) (trace w)).

Definition get_current_user {Store} : M Store Principal :=
  fun w => (Ok (current_user w), w).

Definition put_current_user {Store} (p : Principal) : M Store unit :=
  fun w => (Ok tt, mkWorld (store w) p (utcnow w) (trace w)).

Definition get_utcnow {Store} : M Store Z := fun w => (Ok (utcnow w), w).

End PyM.
Import PyM.

Declare Scope py_scope.
Delimit Scope py_scope with py.
Notation "x <- m ;; k" := (bind m (fun x => k))
  (at level 100, m at next level, right associativity) : py_scope.
Notation "m ;;; k" := (bind m (fun _ => k))
  (at level 100, right associativity) : py_scope.
Local Open Scope py_scope.

(** ** The views *)

Section Views.

Context {Store : Type}.
Variable ext : Externals Store.

Definition logger_error (msg : string) : M Store unit := emit (EvLog LError msg).
Definition logger_warning (msg : string) : M Store unit := emit (EvLog LWarning msg).
Definition flash (msg category : string) : M Store unit := emit (EvFlash msg category).

(** [requests.post(url, json=body)] *)
Definition post (url : string) (body : pyval) : M Store Response :=
  emit (EvPost url body) ;;; lift (requests_post ext url body).

(** [login_user(user, remember=r)] *)
Definition login_user (u : User) (remember : pyval) : M Store unit :=
  emit (EvLoginUser u remember) ;;; put_current_user (principal_of u).

(** [user.save()] *)
Definition save (u : User) : M Store unit :=
  emit (EvSave u) ;;;
  s <- get_store ;;
  s' <- lift (User_save ext u s) ;;
  put_store s'.

(** [a, b = v]: a sequence of exactly two items unpacks into two names; a
    [str] iterates over its characters and a [dict] over its keys (in no
    documented order); the scalars are not iterable. *)
Definition unpack2 (v : pyval) : M Store (pyval * pyval) :=
  match v with
  | VTuple [a; b] | VList [a; b] => ret (a, b)
  | VTuple _ | VList _ => raise (ValueError "wrong number of values to unpack")
  | VStr (String a (String b EmptyString)) =>
      ret (VStr (String a EmptyString), VStr (String b EmptyString))
  | VStr _ => raise (ValueError "wrong number of values to unpack")
  | VDict d =>
      match map_to_list d with
      | [(a, _); (b, _)] => ret (VStr a, VStr b)
      | _ => raise (ValueError "wrong number of values to unpack")
      end
  | VNone => raise (TypeError "'NoneType' object is not iterable")
  | VBool _ => raise (TypeError "'bool' object is not iterable")
  | VInt _ => raise (TypeError "'int' object is not iterable")
  | VFloat _ => raise (TypeError "'float' object is not iterable")
  end.

(** [res.get(k)] on the value that [json.loads] returned. *)
Definition res_get (res : pyval) (k : string) : M Store pyval :=
  match res with
  | VDict d => ret (dict_get d k)
  | _ => raise (AttributeError "object has no attribute 'get'")
  end.

Definition auth_cabinet_user (username password : string) : M Store pyval :=
  req <- post (CABINET_AUTH ext) (auth_payload username password) ;;
  if negb (status_code req =? 200) || negb (truthy (VStr (text req))) then
    logger_error ("requests.post to " ++ CABINET_AUTH ext ++ " failed") ;;;
    ret (VBool false)
  else
    res <- lift (json_loads ext (text req)) ;;
    status <- res_get res "status" ;;
    if negb (eq_str status "OK") then
      logger_warning ("auth_cabinet_user: " ++ text req) ;;;
      ret (VTuple [VBool false; VNone])
    else
      email <- res_get res "email" ;;
      ret (VTuple [VBool true; email]).

(** [request.args.get("next") or url_for("forum.index")] *)
Definition next_or_index (next : option string) : Url :=
  match next with
  | Some target => if truthy (VStr target) then url_raw target
                   else url_for "forum.index" []
  | None => url_for "forum.index" []
  end.

(** [redirect(url_for("user.profile"))], with no [username]: building the
    URL of a rule that has a variable which is not given raises a
    [BuildError]. Every other call of [url_for] in the module passes what
    its endpoint is given elsewhere in the module. *)
Definition redirect_to_bare_profile : M Store View :=
  if profile_needs_username ext then raise (External "BuildError")
  else ret (redirect (url_for "user.profile" [])).

(** [login()]; [form] is [LoginForm(request.form)] and [next] is
    [request.args.get("next")]. The proxy [current_user] is never [None]. *)
Definition login (form : LoginForm) (next : option string) : M Store View :=
  cu <- get_current_user ;;
  if is_authenticated cu then
    redirect_to_bare_profile
  else if login_valid form then
    s <- get_store ;;
    let (user, authenticated) :=
      User_authenticate ext s (login_data form) (password_data form) in
    match user, authenticated with
    | Some u, true =>
        login_user u (VBool (remember_me_data form)) ;;;
        ret (redirect (next_or_index next))
    | _, _ =>
        r <- auth_cabinet_user (login_data form) (password_data form) ;;
        p <- unpack2 r ;;
        let (result, email) := p in
        if truthy result then
          now <- get_utcnow ;;
          let user := {| username := login_data form;
                         email := py_or email (VStr "unknown");
                         password := password_data form;
                         date_joined := now;
                         primary_group_id := 4 |} in
          save user ;;;
          login_user user (VStr (password_data form)) ;;;
          ret (redirect (next_or_index next))
        else
          flash (gettext ext "Wrong Username or Password.") "danger" ;;;
          ret (render_template "auth/login.html" (FLogin form))
    end
  else
    ret (render_template "auth/login.html" (FLogin form)).

Definition create_cabinet_user (username password : string) (email : pyval)
  : M Store bool :=
  req <- post (CABINET_REGISTER ext)
           (register_payload username password email) ;;
  if negb (status_code req =? 200) || negb (truthy (VStr (text req))) then
    logger_error ("requests.post to " ++ CABINET_REGISTER ext ++ " failed") ;;;
    ret false
  else
    res <- lift (json_loads ext (text req)) ;;
    status <- res_get res "status" ;;
    if negb (eq_str status "OK") then
      logger_warning ("create_cabinet_user: " ++ text req) ;;;
      ret false
    else
      ret true.

(** [form.save()] of the registration form: the model creates and stores
    the row. *)
Definition form_save (form : RegisterForm) : M Store User :=
  s <- get_store ;;
  p <- lift (RegisterForm_save ext form s) ;;
  emit (EvFormSave (fst p)) ;;;
  put_store (snd p) ;;;
  ret (fst p).

(** The form object of [register()]: the class is chosen by
    [RECAPTCHA_ENABLED], then the language choices and default are set and
    the form is processed again; [form0] holds the submitted fields. *)
Definition register_form (form0 : RegisterForm) : RegisterForm :=
  {| register_recaptcha := RECAPTCHA_ENABLED ext;
     register_valid := register_valid form0;
     register_username := register_username form0;
     register_email := register_email form0;
     register_password := register_password form0;
     language_choices := available_languages ext;
     language_default := DEFAULT_LANGUAGE ext |}.

Definition register (form0 : RegisterForm) : M Store View :=
  cu <- get_current_user ;;
  if is_authenticated cu then
    ret (redirect (url_for "user.profile"
                     [("username", principal_username cu)]))
  else
    let form := register_form form0 in
    if register_valid form then
      user <- form_save form ;;
      create_cabinet_user (username user) (password user) (email user) ;;;
      login_user user (VBool false) ;;;
      flash (gettext ext "Thanks for registering.") "success" ;;;
      cu' <- get_current_user ;;
      ret (redirect (url_for "user.profile"
                       [("username", principal_username cu')]))
    else
      ret (render_template "auth/register.html" (FRegister form)).

(** [user.make_reset_token()] and [send_reset_token(user, token=token)].
    Both calls are taken to return: an exception of the token service or of
    the mail dispatch is not represented. *)
Definition user_make_reset_token (u : User) : M Store string :=
  now <- get_utcnow ;;
  let token := make_reset_token ext u now in
  emit (EvMakeToken u token) ;;;
  ret token.

Definition send_reset_token (u : User) (token : string) : M Store unit :=
  emit (EvSendToken u token).

Definition forgot_password (form : ForgotPasswordForm) : M Store View :=
  cu <- get_current_user ;;
  if negb (is_anonymous cu) then
    ret (redirect (url_for "forum.index" []))
  else if forgot_valid form then
    s <- get_store ;;
    match filter_by_email_first ext s (forgot_email form) with
    | Some user =>
        token <- user_make_reset_token user ;;
        send_reset_token user token ;;;
        flash (gettext ext "E-Mail sent! Please check your inbox.") "info" ;;;
        ret (redirect (url_for "auth.forgot_password" []))
    | None =>
        flash (gettext ext
                 "You have entered a Username or E-Mail Address that is not linked with your account.")
              "danger" ;;;
        ret (render_template "auth/forgot_password.html" (FForgot form))
    end
  else
    ret (render_template "auth/forgot_password.html" (FForgot form)).

(** [user.verify_reset_token(token)] where [user] is the result of
    [.first()]: attribute access on [None] raises. *)
Definition user_verify_reset_token (user : option User) (token : string)
  : M Store (bool * bool * pyval) :=
  match user with
  | None =>
      raise (AttributeError
               "'NoneType' object has no attribute 'verify_reset_token'")
  | Some u =>
      emit (EvVerifyToken u token) ;;;
      now <- get_utcnow ;;
      ret (verify_reset_token ext u token now)
  end.

(** [form.token.data = token] *)
Definition set_token (form : ResetPasswordForm) (token : string)
  : ResetPasswordForm :=
  {| reset_valid := reset_valid form;
     reset_token := token;
     reset_email := reset_email form;
     reset_password_data := reset_password_data form |}.

(** [user.password = value] *)
Definition set_password (u : User) (value : string) : User :=
  {| username := username u;
     email := email u;
     password := value;
     date_joined := date_joined u;
     primary_group_id := primary_group_id u |}.

Definition reset_password (form : ResetPasswordForm) (token : string)
  : M Store View :=
  cu <- get_current_user ;;
  if negb (is_anonymous cu) then
    ret (redirect (url_for "forum.index" []))
  else
    let fallthrough :=
      ret (render_template "auth/reset_password.html"
             (FReset (set_token form token))) in
    if reset_valid form then
      s <- get_store ;;
      let user := filter_by_email_first ext s (reset_email form) in
      v <- user_verify_reset_token user (reset_token form) ;;
      let '(expired, invalid, data) := v in
      if invalid : bool then
        flash (gettext ext "Your Password Token is invalid.") "danger" ;;;
        ret (redirect (url_for "auth.forgot_password" []))
      else if expired : bool then
        flash (gettext ext "Your Password Token is expired.") "danger" ;;;
        ret (redirect (url_for "auth.forgot_password" []))
      else
        match user with
        | Some u =>
            if truthy data then
              save (set_password u (reset_password_data form)) ;;;
              flash (gettext ext "Your Password has been updated.") "success" ;;;
              ret (redirect (url_for "auth.login" []))
            else fallthrough
        | None => fallthrough
        end
    else fallthrough.

End Views.

(** ** Observations on a trace *)

Definition flashes (t : list Event) : list (string * string) :=
  omap (fun e => match e with EvFlash m c => Some (m, c) | _ => None end) t.

Definition sessions (t : list Event) : list (User * pyval) :=
  omap (fun e => match e with EvLoginUser u r => Some (u, r) | _ => None end) t.

Definition saves (t : list Event) : list User :=
  omap (fun e => match e with EvSave u => Some u | _ => None end) t.

(** The local verifier accepted: [user and authenticated]. *)
Definition accepted (r : option User * bool) : bool :=
  match r with
  | (Some _, true) => true
  | _ => false
  end.

(** What the end user can observe of a run: the view returned (or the
    exception, an internal server error), the flashed messages and who is
    logged in. *)
Definition user_visible {Store A} (run : result A * World Store)
  : result A * list (string * string) * Principal :=
  (fst run, flashes (trace (snd run)), current_user (snd run)).

(** [w] after the events [evs]. *)
Definition after {Store} (w : World Store) (evs : list Event) : World Store :=
  mkWorld (store w) (current_user w) (utcnow w) (trace w ++ evs)%list.

(** ** Conditions on a request *)

(** The transport guard [req.status_code != 200 or not req.text]. *)
Definition transport_failed (resp : Response) : bool :=
  negb (status_code resp =? 200) || negb (truthy (VStr (text resp))).

(** The remote service answered [resp] to [body] and the answer passes the
    transport guard and decodes to the object [d]. *)
Definition well_formed {Store} (ext : Externals Store) (url : string)
    (body : pyval) (resp : Response) (d : gmap string pyval) : Prop :=
  requests_post ext url body = Ok resp /\
  status_code resp = 200 /\ text resp <> "" /\
  json_loads ext (text resp) = Ok (VDict d).

(** A submitted login by a visitor who is not logged in, which the local
    verifier does not accept. *)
Definition locally_rejected {Store} (ext : Externals Store) (form : LoginForm)
    (w : World Store) : Prop :=
  is_authenticated (current_user w) = false /\
  login_valid form = true /\
  accepted (User_authenticate ext (store w) (login_data form)
              (password_data form)) = false.

(** The remote service answers the login of [form] with the well-formed
    object [d]. *)
Definition remote_answer {Store} (ext : Externals Store) (form : LoginForm)
    (resp : Response) (d : gmap string pyval) : Prop :=
  well_formed ext (CABINET_AUTH ext)
    (auth_payload (login_data form) (password_data form)) resp d.

(** The record that [login()] builds on a remote success with answer [d]. *)
Definition provisioned (form : LoginForm) (d : gmap string pyval) (now : Z)
  : User :=
  {| username := login_data form;
     email := py_or (dict_get d "email") (VStr "unknown");
     password := password_data form;
     date_joined := now;
     primary_group_id := 4 |}.

(** ** A small in-memory instance of the collaborators. These stand-ins
    only serve to run the views on concrete requests; the properties below
    hold for every instance of [Externals]. *)
Module Demo.

Definition by_login (s : list User) (login : string) : option User :=
  List.find (fun u => String.eqb (username u) login || eq_str (email u) login) s.

Definition authenticate (s : list User) (login pw : string)
  : option User * bool :=
  match by_login s login with
  | Some u => (Some u, String.eqb (password u) pw)
  | None => (None, false)
  end.

Definition by_email (s : list User) (e : string) : option User :=
  List.find (fun u => eq_str (email u) e) s.

Definition save_row (u : User) (s : list User) : result (list User) :=
  if existsb (fun v => String.eqb (username v) (username u)) s
  then Ok (List.map (fun v => if String.eqb (username v) (username u)
                              then u else v) s)
  else Ok (s ++ [u])%list.

Definition register_row (form : RegisterForm) (s : list User)
  : result (User * list User) :=
  let u := {| username := register_username form;
              email := VStr (register_email form);
              password := register_password form;
              date_joined := 0;
              primary_group_id := 4 |} in
  Ok (u, (s ++ [u])%list).

Definition quoted (s : string) : string :=
  String "034"%char (s ++ String "034"%char "").

(** The text of a flat JSON object with string fields. *)
Fixpoint fields_text (fs : list (string * string)) : string :=
  match fs with
  | [] => ""
  | [(k, v)] => quoted k ++ ": " ++ quoted v
  | (k, v) :: rest => quoted k ++ ": " ++ quoted v ++ ", " ++ fields_text rest
  end.

Definition object_text (fs : list (string * string)) : string :=
  "{" ++ fields_text fs ++ "}".

Definition object_value (fs : list (string * string)) : pyval :=
  VDict (list_to_map (List.map (fun kv => (fst kv, VStr (snd kv))) fs)).

Definition known_objects : list (list (string * string)) :=
  [ [("status", "OK"); ("email", "nina@x.com")];
    [("status", "OK"); ("email", "")];
    [("status", "OK")];
    [("status", "FAIL")] ].

(** Decodes the bodies of [known_objects]; anything else is not JSON. *)
Definition loads (t : string) : result pyval :=
  match List.find (fun fs => String.eqb (object_text fs) t) known_objects with
  | Some fs => Ok (object_value fs)
  | None => Raise (ValueError "No JSON object could be decoded")
  end.

(** The collaborators, for a remote service that always answers [remote]
    and a token service whose verdict is [verdict]. *)
Definition externals (remote : result Response) (verdict : bool * bool * pyval)
  : Externals (list User) :=
  {| CABINET_AUTH := "https://cabinet.example/auth";
     CABINET_REGISTER := "https://cabinet.example/register";
     RECAPTCHA_ENABLED := false;
     DEFAULT_LANGUAGE := "en";
     available_languages := [("en", "English")];
     profile_needs_username := true;
     gettext := fun m => m;
     requests_post := fun _ _ => remote;
     json_loads := loads;
     User_authenticate := authenticate;
     filter_by_email_first := by_email;
     User_save := save_row;
     RegisterForm_save := register_row;
     make_reset_token := fun u _ => "token-for-" ++ username u;
     verify_reset_token := fun _ _ _ => verdict |}.

Definition alice : User :=
  {| username := "alice"; email := VStr "alice@x.com"; password := "secret";
     date_joined := 10; primary_group_id := 4 |}.

Definition guest : Principal :=
  {| is_authenticated := false; is_anonymous := true; principal_username := "" |}.

Definition world0 : World (list User) :=
  {| store := [alice]; current_user := guest; utcnow := 1000; trace := [] |}.

Definition nina_form : LoginForm :=
  {| login_valid := true; login_data := "nina"; password_data := "p1";
     remember_me_data := false |}.

Definition alice_form : LoginForm :=
  {| login_valid := true; login_data := "alice"; password_data := "secret";
     remember_me_data := true |}.

Definition answer (code : Z) (fs : list (string * string)) : result Response :=
  Ok {| status_code := code; text := object_text fs |}.

Definition nina : User :=
  {| username := "nina"; email := VStr "nina@x.com"; password := "p1";
     date_joined := 1000; primary_group_id := 4 |}.

Definition no_verdict : bool * bool * pyval := (false, false, VBool true).

Definition ok_nina : result Response :=
  answer 200 [("status", "OK"); ("email", "nina@x.com")].
Definition ok_empty : result Response :=
  answer 200 [("status", "OK"); ("email", "")].
Definition fail : result Response := answer 200 [("status", "FAIL")].
Definition down : result Response := answer 500 [("status", "OK")].

Definition world_of (p : Principal) : World (list User) :=
  {| store := [alice]; current_user := p; utcnow := 1000; trace := [] |}.

Definition bob_form : RegisterForm :=
  {| register_recaptcha := false; register_valid := true;
     register_username := "bob"; register_email := "bob@x.com";
     register_password := "pw"; language_choices := [];
     language_default := "" |}.

Definition bob : User :=
  {| username := "bob"; email := VStr "bob@x.com"; password := "pw";
     date_joined := 0; primary_group_id := 4 |}.

(** A store in which [nina] already has an account, under another
    password. *)
Definition world_known : World (list User) :=
  {| store := [alice;
               {| username := "nina"; email := VStr "nina@x.com";
                  password := "other"; date_joined := 20;
                  primary_group_id := 4 |}];
     current_user := guest; utcnow := 1000; trace := [] |}.

(** The world right after [form.save()] stored [bob]. *)
Definition world_bob : World (list User) :=
  mkWorld [alice; bob] guest 1000 [EvFormSave bob].

Definition response (code : Z) (fs : list (string * string)) : Response :=
  {| status_code := code; text := object_text fs |}.

Definition forgot_form (address : string) : ForgotPasswordForm :=
  {| forgot_valid := true; forgot_email := address |}.

Definition reset_form (address : string) : ResetPasswordForm :=
  {| reset_valid := true; reset_token := "token-for-alice";
     reset_email := address; reset_password_data := "fresh" |}.

End Demo.


(** ** Re-authentication *)

Record ReauthForm : Type := mkReauthForm {
  reauth_valid : bool;
  reauth_password_data : string
}.

(** The user object behind [current_user] in a view under
    [@login_required]: its [check_password] method and its [url]. *)
Record Member : Type := mkMember {
  check_password : string -> bool;
  member_url : Url
}.

(** What [reauth()] returns. *)
Inductive ReauthView : Type :=
| reauth_redirect (target : Url)
| reauth_template (name : string) (form : ReauthForm).

(** [request.args.get("next") or fallback] *)
Definition next_or (next : option string) (fallback : Url) : Url :=
  match next with
  | Some target => if truthy (VStr target) then url_raw target else fallback
  | None => fallback
  end.

(** [confirm_login()] marks the session as fresh. *)
Definition confirm_login (fresh : bool) : bool := true.

(** The body of [reauth()] (the decorator [@login_required] belongs to
    flask-login). [fresh] is what [login_fresh()] reads; the second
    component of the result is the freshness of the session after the
    call. *)
Definition reauth {Store} (ext : Externals Store) (member : Member)
    (fresh : bool) (form : ReauthForm) (next : option string)
  : M Store (ReauthView * bool) :=
  if negb fresh then
    if reauth_valid form then
      if check_password member (reauth_password_data form) then
        flash (gettext ext "Reauthenticated.") "success" ;;;
        ret (reauth_redirect (next_or next (member_url member)),
             confirm_login fresh)
      else
        flash (gettext ext "Wrong password.") "danger" ;;;
        ret (reauth_template "auth/reauth.html" form, fresh)
    else
      ret (reauth_template "auth/reauth.html" form, fresh)
  else
    ret (reauth_redirect (next_or next (member_url member)), fresh).

(** ** More observations *)

Definition posts (t : list Event) : list (string * pyval) :=
  omap (fun e => match e with EvPost u b => Some (u, b) | _ => None end) t.

Definition is_log (e : Event) : bool :=
  match e with
  | EvLog _ _ => true
  | _ => false
  end.

(** The events that one run of [login] can add to the trace, at clock
    reading [now]. *)
Inductive login_adds {Store} (ext : Externals Store) (form : LoginForm)
    (now : Z) : list Event -> Prop :=
| adds_nothing :
    login_adds ext form now []
| adds_local_session u :
    login_adds ext form now [EvLoginUser u (VBool (remember_me_data form))]
| adds_post :
    login_adds ext form now
      [EvPost (CABINET_AUTH ext)
         (auth_payload (login_data form) (password_data form))]
| adds_transport_error :
    login_adds ext form now
      [EvPost (CABINET_AUTH ext)
         (auth_payload (login_data form) (password_data form));
       EvLog LError ("requests.post to " ++ CABINET_AUTH ext ++ " failed")]
| adds_rejection body :
    login_adds ext form now
      [EvPost (CABINET_AUTH ext)
         (auth_payload (login_data form) (password_data form));
       EvLog LWarning ("auth_cabinet_user: " ++ body);
       EvFlash (gettext ext "Wrong Username or Password.") "danger"]
| adds_failed_save d :
    login_adds ext form now
      [EvPost (CABINET_AUTH ext)
         (auth_payload (login_data form) (password_data form));
       EvSave (provisioned form d now)]
| adds_provisioned d :
    login_adds ext form now
      [EvPost (CABINET_AUTH ext)
         (auth_payload (login_data form) (password_data form));
       EvSave (provisioned form d now);
       EvLoginUser (provisioned form d now) (VStr (password_data form))].

(** Stand-ins for the session views. *)
Module DemoSession.

Definition alice_member : Member :=
  {| check_password := fun pw => String.eqb pw "secret";
     member_url := url_for "user.profile" [("username", "alice")] |}.

Definition reauth_form (pw : string) : ReauthForm :=
  {| reauth_valid := true; reauth_password_data := pw |}.

Definition created : result Response :=
  Demo.answer 201 [("status", "OK")].

Definition unreachable : result Response :=
  Raise (External "ConnectionError").

Definition created_nina : result Response :=
  Demo.answer 201 [("status", "OK"); ("email", "nina@x.com")].

Definition unauthorized : result Response :=
  Demo.answer 401 [("status", "FAIL")].

Definition not_json : result Response :=
  Ok {| status_code := 200; text := "<html>502</html>" |}.

(** A storage that refuses a second row with the same username. *)
Definition insert_row (u : User) (s : list User) : result (list User) :=
  if existsb (fun v => String.eqb (username v) (username u)) s
  then Raise (External "IntegrityError")
  else Ok (s ++ [u])%list.

Definition insert_registered (form : RegisterForm) (s : list User)
  : result (User * list User) :=
  let u := {| username := register_username form;
              email := VStr (register_email form);
              password := register_password form;
              date_joined := 0;
              primary_group_id := 4 |} in
  match insert_row u s with
  | Ok s' => Ok (u, s')
  | Raise e => Raise e
  end.

(** The collaborators of [Demo.externals] over that storage. *)
Definition strict_externals (remote : result Response)
    (verdict : bool * bool * pyval) : Externals (list User) :=
  {| CABINET_AUTH := "https://cabinet.example/auth";
     CABINET_REGISTER := "https://cabinet.example/register";
     RECAPTCHA_ENABLED := false;
     DEFAULT_LANGUAGE := "en";
     available_languages := [("en", "English")];
     profile_needs_username := true;
     gettext := fun m => m;
     requests_post := fun _ _ => remote;
     json_loads := Demo.loads;
     User_authenticate := Demo.authenticate;
     filter_by_email_first := Demo.by_email;
     User_save := insert_row;
     RegisterForm_save := insert_registered;
     make_reset_token := fun u _ => "token-for-" ++ username u;
     verify_reset_token := fun _ _ _ => verdict |}.

Definition alice_again : RegisterForm :=
  {| register_recaptcha := false; register_valid := true;
     register_username := "alice"; register_email := "other@x.com";
     register_password := "pw"; language_choices := [];
     language_default := "" |}.

Definition blank_login : LoginForm :=
  {| login_valid := false; login_data := ""; password_data := "";
     remember_me_data := false |}.

Definition blank_register : RegisterForm :=
  {| register_recaptcha := false; register_valid := false;
     register_username := ""; register_email := "";
     register_password := ""; language_choices := [];
     language_default := "" |}.

Definition blank_forgot : ForgotPasswordForm :=
  {| forgot_valid := false; forgot_email := "" |}.

Definition blank_reset : ResetPasswordForm :=
  {| reset_valid := false; reset_token := ""; reset_email := "";
     reset_password_data := "" |}.

End DemoSession.

(** * Properties *)

(** ** Stepping through the monad *)

Section Stepping.

Context {Store : Type}.
Implicit Types w : World Store.

Lemma bind_ok {A B} (m : M Store A) (k : A -> M Store B) w a w' :
  m w = (Ok a, w') -> bind m k w = k a w'.
Proof. intros H. unfold bind. now rewrite H. Qed.

Lemma bind_raise {A B} (m : M Store A) (k : A -> M Store B) w e w' :
  m w = (Raise e, w') -> bind m k w = (Raise e, w').
Proof. intros H. unfold bind. now rewrite H. Qed.

Lemma after_after w evs evs' :
  after (after w evs) evs' = after w (evs ++ evs')%list.
Proof. unfold after. simpl. now rewrite <- app_assoc. Qed.

Lemma emit_after (e : Event) w : emit e w = (Ok tt, after w [e]).
Proof. reflexivity. Qed.

Lemma flashes_app (t t' : list Event) :
  flashes (t ++ t')%list = (flashes t ++ flashes t')%list.
Proof. apply omap_app. Qed.

Lemma sessions_app (t t' : list Event) :
  sessions (t ++ t')%list = (sessions t ++ sessions t')%list.
Proof. apply omap_app. Qed.

Lemma saves_app (t t' : list Event) :
  saves (t ++ t')%list = (saves t ++ saves t')%list.
Proof. apply omap_app. Qed.

End Stepping.

(** Runs the next call of a [bind] chain whose outcome is known. *)
Ltac step H :=
  first [ rewrite (bind_ok _ _ _ _ _ H) | rewrite (bind_raise _ _ _ _ _ H) ].

(** Closes a goal that compares two fully determined runs. *)
Ltac same_world :=
  simpl;
  unfold bind, ret, raise, logger_error, logger_warning, flash, emit, after;
  simpl; rewrite <- ?app_assoc; reflexivity.

(** ** The remote client *)

Section CabinetClient.

Context {Store : Type}.
Variable ext : Externals Store.
Implicit Types w : World Store.

Lemma transport_failed_true resp :
  status_code resp <> 200 \/ text resp = "" -> transport_failed resp = true.
Proof.
  unfold transport_failed. intros [H | H].
  - apply Z.eqb_neq in H. now rewrite H.
  - rewrite H. simpl. apply orb_true_r.
Qed.

Lemma transport_failed_false resp :
  status_code resp = 200 -> text resp <> "" -> transport_failed resp = false.
Proof.
  unfold transport_failed. intros H1 H2. rewrite H1. simpl.
  apply String.eqb_neq in H2. now rewrite H2.
Qed.

Lemma post_ok url body resp w :
  requests_post ext url body = Ok resp ->
  post ext url body w = (Ok resp, after w [EvPost url body]).
Proof. intros H. unfold post, bind, lift. simpl. now rewrite H. Qed.

Lemma eq_str_true v lit : eq_str v lit = true <-> v = VStr lit.
Proof.
  destruct v; simpl; split; try discriminate.
  - intros H. apply String.eqb_eq in H. now subst.
  - intros H. injection H as ->. apply String.eqb_refl.
Qed.

Lemma status_ok_iff (d : gmap string pyval) :
  eq_str (dict_get d "status") "OK" = true <-> d !! "status" = Some (VStr "OK").
Proof.
  rewrite eq_str_true. unfold dict_get.
  destruct (d !! "status") as [v |]; simpl; split; congruence.
Qed.

Lemma auth_cabinet_user_transport_failure username password resp w :
  requests_post ext (CABINET_AUTH ext) (auth_payload username password) = Ok resp ->
  status_code resp <> 200 \/ text resp = "" ->
  auth_cabinet_user ext username password w =
    (Ok (VBool false),
     after w [EvPost (CABINET_AUTH ext) (auth_payload username password);
              EvLog LError ("requests.post to " ++ CABINET_AUTH ext ++ " failed")]).
Proof.
  intros Hpost Hbad. unfold auth_cabinet_user.
  step (post_ok _ _ _ w Hpost).
  fold (transport_failed resp). rewrite (transport_failed_true _ Hbad).
  same_world.
Qed.

Lemma auth_cabinet_user_rejected username password resp d w :
  well_formed ext (CABINET_AUTH ext) (auth_payload username password) resp d ->
  d !! "status" <> Some (VStr "OK") ->
  auth_cabinet_user ext username password w =
    (Ok (VTuple [VBool false; VNone]),
     after w [EvPost (CABINET_AUTH ext) (auth_payload username password);
              EvLog LWarning ("auth_cabinet_user: " ++ text resp)]).
Proof.
  intros (Hpost & Hcode & Htext & Hjson) Hstatus. unfold auth_cabinet_user.
  step (post_ok _ _ _ w Hpost).
  fold (transport_failed resp). rewrite (transport_failed_false _ Hcode Htext).
  unfold bind, lift. rewrite Hjson. simpl.
  destruct (eq_str (dict_get d "status") "OK") eqn:E.
  - apply status_ok_iff in E. contradiction.
  - same_world.
Qed.

Lemma auth_cabinet_user_accepted username password resp d w :
  well_formed ext (CABINET_AUTH ext) (auth_payload username password) resp d ->
  d !! "status" = Some (VStr "OK") ->
  auth_cabinet_user ext username password w =
    (Ok (VTuple [VBool true; dict_get d "email"]),
     after w [EvPost (CABINET_AUTH ext) (auth_payload username password)]).
Proof.
  intros (Hpost & Hcode & Htext & Hjson) Hstatus. unfold auth_cabinet_user.
  step (post_ok _ _ _ w Hpost).
  fold (transport_failed resp). rewrite (transport_failed_false _ Hcode Htext).
  unfold bind, lift. rewrite Hjson. simpl.
  apply status_ok_iff in Hstatus. rewrite Hstatus. same_world.
Qed.

End CabinetClient.

(** ** The login flow *)

(** Enters the remote branch of [login]: the visitor is not logged in, the
    form validates and the local verifier does not accept. *)
Ltac enter_remote Hloc :=
  let Hcu := fresh "Hcu" in
  let Hvalid := fresh "Hvalid" in
  let Hlocal := fresh "Hlocal" in
  destruct Hloc as (Hcu & Hvalid & Hlocal);
  unfold login; unfold bind at 1, get_current_user; rewrite Hcu, Hvalid;
  unfold bind at 1, get_store;
  match goal with
  | |- context [User_authenticate ?e ?s ?l ?p] =>
      destruct (User_authenticate e s l p) as [[? |] [|]];
      try discriminate Hlocal
  end.

Section LoginFlow.

Context {Store : Type}.
Variable ext : Externals Store.
Implicit Types w : World Store.

Lemma login_local_accepted form next w u :
  is_authenticated (current_user w) = false ->
  login_valid form = true ->
  User_authenticate ext (store w) (login_data form) (password_data form)
    = (Some u, true) ->
  login ext form next w =
    (Ok (redirect (next_or_index next)),
     mkWorld (store w) (principal_of u) (utcnow w)
       (trace w ++ [EvLoginUser u (VBool (remember_me_data form))])%list).
Proof.
  intros Hcu Hvalid Hlocal. unfold login.
  unfold bind at 1, get_current_user. rewrite Hcu, Hvalid.
  unfold bind at 1, get_store. rewrite Hlocal.
  reflexivity.
Qed.

Lemma login_remote_accepted form next w resp d :
  locally_rejected ext form w ->
  remote_answer ext form resp d ->
  d !! "status" = Some (VStr "OK") ->
  login ext form next w =
    match User_save ext (provisioned form d (utcnow w)) (store w) with
    | Ok s' =>
        (Ok (redirect (next_or_index next)),
         mkWorld s' (principal_of (provisioned form d (utcnow w))) (utcnow w)
           (trace w ++
            [EvPost (CABINET_AUTH ext)
               (auth_payload (login_data form) (password_data form));
             EvSave (provisioned form d (utcnow w));
             EvLoginUser (provisioned form d (utcnow w))
               (VStr (password_data form))])%list)
    | Raise e =>
        (Raise e,
         after w [EvPost (CABINET_AUTH ext)
                    (auth_payload (login_data form) (password_data form));
                  EvSave (provisioned form d (utcnow w))])
    end.
Proof.
  intros Hloc Hrem Hstatus.
  pose proof (auth_cabinet_user_accepted ext _ _ _ _ w Hrem Hstatus) as Hremote.
  enter_remote Hloc; step Hremote;
    cbv beta iota zeta delta
      [bind unpack2 ret get_utcnow save login_user emit get_store lift
       put_store put_current_user after truthy];
    simpl; fold (provisioned form d (utcnow w));
    destruct (User_save ext (provisioned form d (utcnow w)) (store w));
    simpl; rewrite <- ?app_assoc; reflexivity.
Qed.

Lemma login_both_rejected form next w resp d :
  locally_rejected ext form w ->
  remote_answer ext form resp d ->
  d !! "status" <> Some (VStr "OK") ->
  login ext form next w =
    (Ok (render_template "auth/login.html" (FLogin form)),
     after w [EvPost (CABINET_AUTH ext)
                (auth_payload (login_data form) (password_data form));
              EvLog LWarning ("auth_cabinet_user: " ++ text resp);
              EvFlash (gettext ext "Wrong Username or Password.") "danger"]).
Proof.
  intros Hloc Hrem Hstatus.
  pose proof (auth_cabinet_user_rejected ext _ _ _ _ w Hrem Hstatus) as Hremote.
  enter_remote Hloc; step Hremote; same_world.
Qed.

(** C1 (first half holds, second half fails). When the remote answer is not
    a 200 or has an empty body, [auth_cabinet_user] logs an error and returns
    the bare [False]; [login] then fails to unpack that value and raises a
    [TypeError] instead of flashing the ordinary rejection: the end user
    gets an internal error, not the login page. *)
Theorem login_remote_transport_failure_raises form next w resp :
  locally_rejected ext form w ->
  requests_post ext (CABINET_AUTH ext)
    (auth_payload (login_data form) (password_data form)) = Ok resp ->
  status_code resp <> 200 \/ text resp = "" ->
  auth_cabinet_user ext (login_data form) (password_data form) w =
    (Ok (VBool false),
     after w [EvPost (CABINET_AUTH ext)
                (auth_payload (login_data form) (password_data form));
              EvLog LError ("requests.post to " ++ CABINET_AUTH ext ++ " failed")])
  /\ login ext form next w =
    (Raise (TypeError "'bool' object is not iterable"),
     after w [EvPost (CABINET_AUTH ext)
                (auth_payload (login_data form) (password_data form));
              EvLog LError ("requests.post to " ++ CABINET_AUTH ext ++ " failed")])
  /\ flashes (trace (snd (login ext form next w))) = flashes (trace w).
Proof.
  intros Hloc Hpost Hbad.
  pose proof (auth_cabinet_user_transport_failure ext _ _ _ w Hpost Hbad) as Hremote.
  split; [exact Hremote |].
  assert (login ext form next w =
    (Raise (TypeError "'bool' object is not iterable"),
     after w [EvPost (CABINET_AUTH ext)
                (auth_payload (login_data form) (password_data form));
              EvLog LError ("requests.post to " ++ CABINET_AUTH ext ++ " failed")]))
    as Hrun.
  { enter_remote Hloc; step Hremote; reflexivity. }
  split; [exact Hrun |].
  rewrite Hrun. simpl. rewrite flashes_app. simpl. apply app_nil_r.
Qed.

(** C2 (amended). On an answer with status code exactly 200 and a
    non-empty body decoding to an object [auth_cabinet_user] returns a pair whose first component is
    [True] exactly when the [status] field is the string [OK]; otherwise
    (another value or no field) it is [False], the email is [None] and the
    raw body is logged as a warning; on [True] the email is the [email] field
    when present and [None] when absent, and nothing is logged. *)
Theorem auth_cabinet_user_well_formed username password resp d w :
  well_formed ext (CABINET_AUTH ext) (auth_payload username password) resp d ->
  exists (ok : bool) (email : pyval) (logged : list Event),
    auth_cabinet_user ext username password w =
      (Ok (VTuple [VBool ok; email]),
       after w (EvPost (CABINET_AUTH ext) (auth_payload username password)
                :: logged))
    /\ (ok = true <-> d !! "status" = Some (VStr "OK"))
    /\ (ok = true ->
        email = match d !! "email" with Some e => e | None => VNone end
        /\ logged = [])
    /\ (ok = false ->
        email = VNone
        /\ logged = [EvLog LWarning ("auth_cabinet_user: " ++ text resp)]).
Proof.
  intros Hwf.
  destruct (eq_str (dict_get d "status") "OK") eqn:E.
  - apply status_ok_iff in E.
    exists true, (dict_get d "email"), [].
    split; [exact (auth_cabinet_user_accepted ext _ _ resp d w Hwf E) |].
    repeat split; auto; discriminate.
  - assert (d !! "status" <> Some (VStr "OK")) as Hno.
    { intros H. apply status_ok_iff in H. congruence. }
    exists false, VNone, [EvLog LWarning ("auth_cabinet_user: " ++ text resp)].
    split; [exact (auth_cabinet_user_rejected ext _ _ resp d w Hwf Hno) |].
    repeat split; auto; try discriminate.
Qed.

(** C3 (amended). On a remote success [login] hands to [save] a record with
    the submitted login as username, the submitted password, group 4, the
    current time, and as email the remote [email] field when that value is
    truthy and the sentinel [unknown] otherwise (field absent, [null] or
    empty); when the storage accepts the record, the session starts for it. *)
Theorem login_auto_provision_record form next w resp d :
  locally_rejected ext form w ->
  remote_answer ext form resp d ->
  d !! "status" = Some (VStr "OK") ->
  let remote_email := match d !! "email" with Some e => e | None => VNone end in
  let u := {| username := login_data form;
              email := if truthy remote_email then remote_email
                       else VStr "unknown";
              password := password_data form;
              date_joined := utcnow w;
              primary_group_id := 4 |} in
  let run := login ext form next w in
  saves (trace (snd run)) = (saves (trace w) ++ [u])%list
  /\ forall s', User_save ext u (store w) = Ok s' ->
       fst run = Ok (redirect (next_or_index next))
       /\ store (snd run) = s'
       /\ sessions (trace (snd run))
          = (sessions (trace w) ++ [(u, VStr (password_data form))])%list.
Proof.
  intros Hloc Hrem Hstatus remote_email u run.
  assert (u = provisioned form d (utcnow w)) as Hu by reflexivity.
  subst run. rewrite (login_remote_accepted _ next _ _ _ Hloc Hrem Hstatus).
  rewrite <- Hu. split.
  - destruct (User_save ext u (store w)); simpl; unfold after; simpl;
      rewrite saves_app; reflexivity.
  - intros s' Hsave. rewrite Hsave. simpl. rewrite sessions_app. auto.
Qed.

(** C9. The local success path starts the session with the form's
    remember-me value as [remember]; the remote success path starts it with
    the submitted password as [remember]; the two arguments differ. *)
Theorem login_remember_argument form next w :
  is_authenticated (current_user w) = false ->
  login_valid form = true ->
  let run := login ext form next w in
  (forall u,
      User_authenticate ext (store w) (login_data form) (password_data form)
        = (Some u, true) ->
      sessions (trace (snd run))
        = (sessions (trace w) ++ [(u, VBool (remember_me_data form))])%list)
  /\ (forall resp d s',
      accepted (User_authenticate ext (store w) (login_data form)
                  (password_data form)) = false ->
      remote_answer ext form resp d ->
      d !! "status" = Some (VStr "OK") ->
      User_save ext (provisioned form d (utcnow w)) (store w) = Ok s' ->
      sessions (trace (snd run))
        = (sessions (trace w) ++
           [(provisioned form d (utcnow w), VStr (password_data form))])%list)
  /\ VStr (password_data form) <> VBool (remember_me_data form).
Proof.
  intros Hcu Hvalid run. subst run. repeat split.
  - intros u Hlocal. rewrite (login_local_accepted _ next _ _ Hcu Hvalid Hlocal).
    simpl. now rewrite sessions_app.
  - intros resp d s' Hlocal Hrem Hstatus Hsave.
    rewrite (login_remote_accepted _ next _ _ _ (conj Hcu (conj Hvalid Hlocal))
               Hrem Hstatus).
    rewrite Hsave. simpl. now rewrite sessions_app.
  - discriminate.
Qed.

End LoginFlow.

(** X21. Two login attempts with the same form, each refused by the local
    verifier and by a remote answer of status code 200 whose body decodes
    to an object with a status other than [OK], look the same to the end
    user whatever the local store holds and whatever else the answer says:
    the login page with the one message [Wrong Username or Password.]. *)
Theorem login_rejection_is_generic {Store} (ext1 ext2 : Externals Store)
    form next (w1 w2 : World Store) resp1 resp2 d1 d2 :
  locally_rejected ext1 form w1 ->
  remote_answer ext1 form resp1 d1 ->
  d1 !! "status" <> Some (VStr "OK") ->
  locally_rejected ext2 form w2 ->
  remote_answer ext2 form resp2 d2 ->
  d2 !! "status" <> Some (VStr "OK") ->
  gettext ext1 = gettext ext2 ->
  flashes (trace w1) = flashes (trace w2) ->
  current_user w1 = current_user w2 ->
  user_visible (login ext1 form next w1)
    = (Ok (render_template "auth/login.html" (FLogin form)),
       (flashes (trace w1) ++
        [(gettext ext1 "Wrong Username or Password.", "danger")])%list,
       current_user w1)
  /\ user_visible (login ext1 form next w1)
     = user_visible (login ext2 form next w2).
Proof.
  intros Hloc1 Hrem1 Hno1 Hloc2 Hrem2 Hno2 Htext Hflash Hcu.
  rewrite (login_both_rejected ext1 _ next _ _ _ Hloc1 Hrem1 Hno1).
  rewrite (login_both_rejected ext2 _ next _ _ _ Hloc2 Hrem2 Hno2).
  unfold user_visible, after. simpl. rewrite !flashes_app. simpl.
  rewrite Htext, Hflash, Hcu. auto.
Qed.

(** C5 (fails when the refusal does not come with status code 200). A pair
    that both backends reject gets the generic message only when the remote
    refusal is a 200 answer. When the remote service refuses with another
    status code (a 401, say, whose body says [FAIL]), [auth_cabinet_user]
    returns the bare [False], [login] raises a [TypeError] and flashes
    nothing: the end user sees an internal error, which differs from the
    generic rejection. *)
Theorem login_rejection_by_status_code_is_visible {Store}
    (ext1 ext2 : Externals Store) form next (w1 w2 : World Store)
    resp1 d1 resp2 d2 :
  locally_rejected ext1 form w1 ->
  remote_answer ext1 form resp1 d1 ->
  d1 !! "status" <> Some (VStr "OK") ->
  locally_rejected ext2 form w2 ->
  requests_post ext2 (CABINET_AUTH ext2)
    (auth_payload (login_data form) (password_data form)) = Ok resp2 ->
  status_code resp2 <> 200 ->
  json_loads ext2 (text resp2) = Ok (VDict d2) ->
  d2 !! "status" <> Some (VStr "OK") ->
  fst (login ext1 form next w1)
    = Ok (render_template "auth/login.html" (FLogin form))
  /\ fst (login ext2 form next w2)
     = Raise (TypeError "'bool' object is not iterable")
  /\ flashes (trace (snd (login ext2 form next w2))) = flashes (trace w2)
  /\ user_visible (login ext1 form next w1)
     <> user_visible (login ext2 form next w2).
Proof.
  intros Hloc1 Hrem1 Hno1 Hloc2 Hpost2 Hcode2 _ _.
  rewrite (login_both_rejected ext1 _ next _ _ _ Hloc1 Hrem1 Hno1).
  pose proof (auth_cabinet_user_transport_failure ext2 _ _ _ w2 Hpost2
                (or_introl Hcode2)) as Hremote.
  assert (login ext2 form next w2 =
    (Raise (TypeError "'bool' object is not iterable"),
     after w2 [EvPost (CABINET_AUTH ext2)
                 (auth_payload (login_data form) (password_data form));
               EvLog LError
                 ("requests.post to " ++ CABINET_AUTH ext2 ++ " failed")]))
    as Hrun.
  { enter_remote Hloc2; step Hremote; reflexivity. }
  rewrite Hrun. unfold user_visible. simpl.
  rewrite flashes_app. simpl. rewrite app_nil_r.
  repeat split. discriminate.
Qed.

(** ** Registration *)

Section RegisterFlow.

Context {Store : Type}.
Variable ext : Externals Store.
Implicit Types w : World Store.

(** The mirror call touches neither the store nor the session, and flashes
    nothing: it only posts and logs. *)
Lemma create_cabinet_user_frame username password email w :
  exists evs,
    snd (create_cabinet_user ext username password email w) = after w evs
    /\ flashes evs = [] /\ sessions evs = [] /\ saves evs = [].
Proof.
  cbv beta iota zeta delta
    [create_cabinet_user post bind emit lift ret logger_error logger_warning
     res_get raise].
  destruct (requests_post ext _ _) as [resp | e];
    [| eexists; split; [same_world | auto]].
  fold (transport_failed resp). destruct (transport_failed resp);
    [eexists; split; [same_world | auto] |].
  destruct (json_loads ext (text resp)) as [res | e];
    [| eexists; split; [same_world | auto]].
  destruct res; try (eexists; split; [same_world | auto]).
  destruct (eq_str (dict_get d "status") "OK");
    eexists; (split; [same_world | auto]).
Qed.

(** C4. Once [form.save()] has stored the new account, the value that the
    mirror call returns ([True] or [False]) changes nothing: the stored
    account stays, the session starts for it, and the user gets the same
    message and the same redirect. *)
Theorem register_mirror_is_advisory form0 w user s' (b : bool) wm :
  is_authenticated (current_user w) = false ->
  register_valid form0 = true ->
  RegisterForm_save ext (register_form ext form0) (store w) = Ok (user, s') ->
  create_cabinet_user ext (username user) (password user) (email user)
    (mkWorld s' (current_user w) (utcnow w) (trace w ++ [EvFormSave user])%list)
    = (Ok b, wm) ->
  let run := register ext form0 w in
  user_visible run
    = (Ok (redirect (url_for "user.profile" [("username", username user)])),
       (flashes (trace w) ++
        [(gettext ext "Thanks for registering.", "success")])%list,
       principal_of user)
  /\ store (snd run) = s'
  /\ sessions (trace (snd run))
     = (sessions (trace w) ++ [(user, VBool false)])%list.
Proof.
  intros Hcu Hvalid Hsave Hmirror run.
  destruct (create_cabinet_user_frame (username user) (password user)
              (email user)
              (mkWorld s' (current_user w) (utcnow w)
                 (trace w ++ [EvFormSave user])%list))
    as (evs & Hwm & Hfl & Hse & _).
  rewrite Hmirror in Hwm. simpl in Hwm. subst wm.
  assert (run =
    (Ok (redirect (url_for "user.profile" [("username", username user)])),
     mkWorld s' (principal_of user) (utcnow w)
       (((trace w ++ [EvFormSave user]) ++ evs) ++
        [EvLoginUser user (VBool false);
         EvFlash (gettext ext "Thanks for registering.") "success"])%list))
    as Hrun.
  { subst run. unfold register.
    unfold bind at 1, get_current_user. rewrite Hcu.
    change (register_valid (register_form ext form0)) with (register_valid form0).
    rewrite Hvalid.
    assert (form_save ext (register_form ext form0) w =
      (Ok user, mkWorld s' (current_user w) (utcnow w)
                  (trace w ++ [EvFormSave user])%list)) as Hform.
    { unfold form_save, bind, get_store, lift, emit, put_store. simpl.
      now rewrite Hsave. }
    step Hform. step Hmirror. same_world. }
  rewrite Hrun. unfold user_visible. simpl.
  rewrite !flashes_app, !sessions_app, Hfl, Hse. simpl.
  rewrite !app_nil_r. auto.
Qed.

End RegisterFlow.

(** ** Password reset *)

Section ResetFlow.

Context {Store : Type}.
Variable ext : Externals Store.
Implicit Types w : World Store.

(** C7. For a submitted forgot-password form: when no account has the
    email, the only effect is the flash of the [not linked] message (no
    token is made or sent); when an account has it, a token is made for that
    account and handed to [send_reset_token]. *)
Theorem forgot_password_token_only_for_account form w :
  is_anonymous (current_user w) = true ->
  forgot_valid form = true ->
  (filter_by_email_first ext (store w) (forgot_email form) = None ->
   forgot_password ext form w =
     (Ok (render_template "auth/forgot_password.html" (FForgot form)),
      after w [EvFlash
                 (gettext ext
                    "You have entered a Username or E-Mail Address that is not linked with your account.")
                 "danger"]))
  /\ (forall user,
      filter_by_email_first ext (store w) (forgot_email form) = Some user ->
      forgot_password ext form w =
        (Ok (redirect (url_for "auth.forgot_password" [])),
         after w [EvMakeToken user (make_reset_token ext user (utcnow w));
                  EvSendToken user (make_reset_token ext user (utcnow w));
                  EvFlash (gettext ext "E-Mail sent! Please check your inbox.")
                    "info"])).
Proof.
  intros Hcu Hvalid. split.
  - intros Hnone. unfold forgot_password.
    unfold bind at 1, get_current_user. rewrite Hcu, Hvalid. simpl.
    unfold bind at 1, get_store. rewrite Hnone. same_world.
  - intros user Hsome. unfold forgot_password.
    unfold bind at 1, get_current_user. rewrite Hcu, Hvalid. simpl.
    unfold bind at 1, get_store. rewrite Hsome.
    unfold user_make_reset_token, send_reset_token, get_utcnow. same_world.
Qed.

(** The run of [reset_password] on a submitted form whose email has an
    account [u], by the verdict of the token service. *)
Lemma reset_password_run form token w u expired invalid data :
  is_anonymous (current_user w) = true ->
  reset_valid form = true ->
  filter_by_email_first ext (store w) (reset_email form) = Some u ->
  verify_reset_token ext u (reset_token form) (utcnow w)
    = (expired, invalid, data) ->
  reset_password ext form token w =
    if invalid then
      (Ok (redirect (url_for "auth.forgot_password" [])),
       after w [EvVerifyToken u (reset_token form);
                EvFlash (gettext ext "Your Password Token is invalid.") "danger"])
    else if expired then
      (Ok (redirect (url_for "auth.forgot_password" [])),
       after w [EvVerifyToken u (reset_token form);
                EvFlash (gettext ext "Your Password Token is expired.") "danger"])
    else if truthy data then
      match User_save ext (set_password u (reset_password_data form)) (store w) with
      | Ok s' =>
          (Ok (redirect (url_for "auth.login" [])),
           mkWorld s' (current_user w) (utcnow w)
             (trace w ++
              [EvVerifyToken u (reset_token form);
               EvSave (set_password u (reset_password_data form));
               EvFlash (gettext ext "Your Password has been updated.")
                 "success"])%list)
      | Raise e =>
          (Raise e,
           after w [EvVerifyToken u (reset_token form);
                    EvSave (set_password u (reset_password_data form))])
      end
    else
      (Ok (render_template "auth/reset_password.html"
             (FReset (set_token form token))),
       after w [EvVerifyToken u (reset_token form)]).
Proof.
  intros Hcu Hvalid Huser Hverdict. unfold reset_password.
  unfold bind at 1, get_current_user. rewrite Hcu, Hvalid. simpl.
  unfold bind at 1, get_store. rewrite Huser.
  unfold user_verify_reset_token.
  cbv beta iota zeta delta [bind emit get_utcnow ret]. simpl.
  rewrite Hverdict.
  destruct invalid; [same_world |].
  destruct expired; [same_world |].
  destruct (truthy data); [| same_world].
  cbv beta iota zeta delta
    [bind save emit get_store lift put_store flash ret after]. simpl.
  destruct (User_save ext (set_password u (reset_password_data form)) (store w));
    simpl; rewrite <- ?app_assoc; reflexivity.
Qed.

(** C6. On a submitted reset form: when the token service reports
    [invalid] for the account of the submitted email, the invalid-token
    outcome is given whatever [expired] says (the expired-token outcome needs
    [invalid] to be false); and [save] is called, or the store changes, only
    when the account exists and the service reports both flags false, the
    one record saved being the account with the submitted password. *)
Theorem reset_password_invalid_before_expired form token w :
  is_anonymous (current_user w) = true ->
  reset_valid form = true ->
  let run := reset_password ext form token w in
  let lookup := filter_by_email_first ext (store w) (reset_email form) in
  (forall u expired data,
      lookup = Some u ->
      verify_reset_token ext u (reset_token form) (utcnow w)
        = (expired, true, data) ->
      run = (Ok (redirect (url_for "auth.forgot_password" [])),
             after w [EvVerifyToken u (reset_token form);
                      EvFlash (gettext ext "Your Password Token is invalid.")
                        "danger"]))
  /\ (forall u data,
      lookup = Some u ->
      verify_reset_token ext u (reset_token form) (utcnow w)
        = (true, false, data) ->
      run = (Ok (redirect (url_for "auth.forgot_password" [])),
             after w [EvVerifyToken u (reset_token form);
                      EvFlash (gettext ext "Your Password Token is expired.")
                        "danger"]))
  /\ (saves (trace (snd run)) <> saves (trace w) \/ store (snd run) <> store w ->
      exists u data,
        lookup = Some u
        /\ verify_reset_token ext u (reset_token form) (utcnow w)
           = (false, false, data)
        /\ saves (trace (snd run))
           = (saves (trace w) ++ [set_password u (reset_password_data form)])%list).
Proof.
  intros Hcu Hvalid run lookup. subst run lookup.
  split; [| split].
  - intros u expired data Huser Hverdict.
    now rewrite (reset_password_run _ token _ _ _ _ _ Hcu Hvalid Huser Hverdict).
  - intros u data Huser Hverdict.
    now rewrite (reset_password_run _ token _ _ _ _ _ Hcu Hvalid Huser Hverdict).
  - destruct (filter_by_email_first ext (store w) (reset_email form))
      as [u |] eqn:Huser.
    + destruct (verify_reset_token ext u (reset_token form) (utcnow w))
        as [[expired invalid] data] eqn:Hverdict.
      rewrite (reset_password_run _ token _ _ _ _ _ Hcu Hvalid Huser Hverdict).
      destruct invalid;
        [simpl; rewrite saves_app, app_nil_r; intros [H | H]; contradiction |].
      destruct expired;
        [simpl; rewrite saves_app, app_nil_r; intros [H | H]; contradiction |].
      destruct (truthy data);
        [| simpl; rewrite saves_app, app_nil_r; intros [H | H]; contradiction].
      intros _. exists u, data. split; [reflexivity |]. split; [assumption |].
      destruct (User_save ext _ (store w)); simpl; now rewrite saves_app.
    + assert (reset_password ext form token w =
                (Raise (AttributeError
                   "'NoneType' object has no attribute 'verify_reset_token'"),
                 w)) as Hrun.
      { unfold reset_password.
        unfold bind at 1, get_current_user. rewrite Hcu, Hvalid. simpl.
        unfold bind at 1, get_store. rewrite Huser. reflexivity. }
      rewrite Hrun. simpl. intros [H | H]; contradiction.
Qed.

(** C8. On a submitted reset form, [verify_reset_token] is called on the
    result of the lookup before anything tests that result: when no account
    has the email the call is made on [None] and raises, before any flash or
    store access; when an account has it, the verification is the first
    effect of the run. *)
Theorem reset_password_verifies_unchecked_lookup form token w :
  is_anonymous (current_user w) = true ->
  reset_valid form = true ->
  (filter_by_email_first ext (store w) (reset_email form) = None ->
   reset_password ext form token w =
     (Raise (AttributeError
               "'NoneType' object has no attribute 'verify_reset_token'"),
      w))
  /\ (forall u,
      filter_by_email_first ext (store w) (reset_email form) = Some u ->
      exists evs,
        trace (snd (reset_password ext form token w))
          = (trace w ++ EvVerifyToken u (reset_token form) :: evs)%list).
Proof.
  intros Hcu Hvalid. split.
  - intros Hnone. unfold reset_password.
    unfold bind at 1, get_current_user. rewrite Hcu, Hvalid. simpl.
    unfold bind at 1, get_store. rewrite Hnone. reflexivity.
  - intros u Huser.
    destruct (verify_reset_token ext u (reset_token form) (utcnow w))
      as [[expired invalid] data] eqn:Hverdict.
    rewrite (reset_password_run _ token _ _ _ _ _ Hcu Hvalid Huser Hverdict).
    destruct invalid; [eexists; reflexivity |].
    destruct expired; [eexists; reflexivity |].
    destruct (truthy data); [| eexists; reflexivity].
    destruct (User_save ext _ (store w)); eexists; reflexivity.
Qed.

End ResetFlow.

(** ** Requests by a visitor who is already logged in *)

(** C10 (the frame holds, the redirect of [login] does not). [login] and
    [register] called by an authenticated visitor, and [forgot_password]
    and [reset_password] called by a visitor who is not anonymous, leave the
    world as it was: no store change and no call to any collaborator.
    [register], [forgot_password] and [reset_password] return their
    redirect; [login] asks for the URL of [user.profile] without the
    username, so it returns a redirect only if the rule of that endpoint
    takes none, and ends with a [BuildError] if it takes one. *)
Theorem logged_in_requests_change_nothing {Store} (ext : Externals Store)
    (w : World Store) (lf : LoginForm) (next : option string)
    (rf : RegisterForm) (ff : ForgotPasswordForm) (pf : ResetPasswordForm)
    (token : string) :
  (is_authenticated (current_user w) = true ->
   login ext lf next w =
     (if profile_needs_username ext then Raise (External "BuildError")
      else Ok (redirect (url_for "user.profile" [])),
      w)
   /\ register ext rf w =
      (Ok (redirect (url_for "user.profile"
                       [("username", principal_username (current_user w))])),
       w))
  /\ (is_anonymous (current_user w) = false ->
      forgot_password ext ff w = (Ok (redirect (url_for "forum.index" [])), w)
      /\ reset_password ext pf token w
         = (Ok (redirect (url_for "forum.index" [])), w)).
Proof.
  split; intros H; split.
  - unfold login, bind, get_current_user. rewrite H.
    unfold redirect_to_bare_profile.
    now destruct (profile_needs_username ext).
  - unfold register, bind, get_current_user. now rewrite H.
  - unfold forgot_password, bind, get_current_user. now rewrite H.
  - unfold reset_password, bind, get_current_user. now rewrite H.
Qed.

(** * The properties on concrete requests *)

Section Runs.

Import Demo.

(** Discharges the side conditions of a concrete run by evaluation. *)
Ltac evaluated :=
  repeat match goal with
         | |- _ /\ _ => split
         | |- _ <> _ => vm_compute; discriminate
         | |- _ = _ => vm_compute; reflexivity
         end.

(** C1 at a concrete request: [nina] is unknown locally and the remote
    service answers with status code 500; [login] raises and flashes
    nothing. *)
Lemma login_remote_transport_failure_raises_witness :
  locally_rejected (externals down no_verdict) nina_form world0
  /\ requests_post (externals down no_verdict)
       (CABINET_AUTH (externals down no_verdict))
       (auth_payload (login_data nina_form) (password_data nina_form))
     = Ok (response 500 [("status", "OK")])
  /\ status_code (response 500 [("status", "OK")]) <> 200
  /\ fst (login (externals down no_verdict) nina_form None world0)
     = Raise (TypeError "'bool' object is not iterable")
  /\ flashes (trace (snd (login (externals down no_verdict) nina_form None
                            world0))) = [].
Proof.
  assert (locally_rejected (externals down no_verdict) nina_form world0)
    as Hloc by (unfold locally_rejected; evaluated).
  assert (requests_post (externals down no_verdict)
            (CABINET_AUTH (externals down no_verdict))
            (auth_payload (login_data nina_form) (password_data nina_form))
          = Ok (response 500 [("status", "OK")])) as Hpost by evaluated.
  assert (status_code (response 500 [("status", "OK")]) <> 200) as Hcode
    by evaluated.
  pose proof (login_remote_transport_failure_raises
                (externals down no_verdict) nina_form None world0
                (response 500 [("status", "OK")])) as H.
  specialize (H Hloc). specialize (H Hpost). specialize (H (or_introl Hcode)).
  destruct H as (_ & Hrun & Hflash).
  split; [exact Hloc |]. split; [exact Hpost |]. split; [exact Hcode |].
  split; [rewrite Hrun; reflexivity | exact Hflash].
Defined.

(** C2 at a concrete answer: status [OK] with an email. *)
Lemma auth_cabinet_user_well_formed_witness :
  well_formed (externals ok_nina no_verdict)
    (CABINET_AUTH (externals ok_nina no_verdict)) (auth_payload "nina" "p1")
    (response 200 [("status", "OK"); ("email", "nina@x.com")])
    {[ "status" := VStr "OK"; "email" := VStr "nina@x.com" ]}
  /\ fst (auth_cabinet_user (externals ok_nina no_verdict) "nina" "p1" world0)
     = Ok (VTuple [VBool true; VStr "nina@x.com"]).
Proof.
  assert (well_formed (externals ok_nina no_verdict)
            (CABINET_AUTH (externals ok_nina no_verdict))
            (auth_payload "nina" "p1")
            (response 200 [("status", "OK"); ("email", "nina@x.com")])
            {[ "status" := VStr "OK"; "email" := VStr "nina@x.com" ]}) as Hwf
    by (unfold well_formed; evaluated).
  split; [exact Hwf |].
  pose proof (auth_cabinet_user_well_formed (externals ok_nina no_verdict)
                "nina" "p1" _ _ world0 Hwf) as H.
  destruct H as (ok & mail & logged & Hrun & Hok & Hmail & _).
  assert (ok = true) as -> by (apply Hok; vm_compute; reflexivity).
  destruct (Hmail eq_refl) as (-> & _).
  rewrite Hrun. vm_compute. reflexivity.
Defined.

(** C2 as stated fails: the remote service answers with status code 201
    and a body that decodes to an object whose [status] is [OK] and that
    has an email; [auth_cabinet_user] does not return a pair with [True]
    but logs an error and returns the bare [False]. *)
Lemma auth_cabinet_user_created_counterexample :
  requests_post (externals DemoSession.created_nina no_verdict)
    (CABINET_AUTH (externals DemoSession.created_nina no_verdict))
    (auth_payload "nina" "p1")
  = Ok (response 201 [("status", "OK"); ("email", "nina@x.com")])
  /\ json_loads (externals DemoSession.created_nina no_verdict)
       (text (response 201 [("status", "OK"); ("email", "nina@x.com")]))
     = Ok (VDict {[ "status" := VStr "OK"; "email" := VStr "nina@x.com" ]})
  /\ ({[ "status" := VStr "OK"; "email" := VStr "nina@x.com" ]}
        : gmap string pyval) !! "status" = Some (VStr "OK")
  /\ fst (auth_cabinet_user (externals DemoSession.created_nina no_verdict)
            "nina" "p1" world0) = Ok (VBool false)
  /\ trace (snd (auth_cabinet_user
                   (externals DemoSession.created_nina no_verdict)
                   "nina" "p1" world0))
     = [EvPost "https://cabinet.example/auth" (auth_payload "nina" "p1");
        EvLog LError "requests.post to https://cabinet.example/auth failed"].
Proof.
  split; [vm_compute; reflexivity |].
  split; [vm_compute; reflexivity |].
  split; [vm_compute; reflexivity |].
  split; vm_compute; reflexivity.
Qed.

(** C3 as stated fails: the remote service answers [OK] with an [email]
    field that is present and empty; the record handed to [save] does not
    carry that email but the sentinel. *)
Lemma provisioned_email_counterexample :
  locally_rejected (externals ok_empty no_verdict) nina_form world0
  /\ remote_answer (externals ok_empty no_verdict) nina_form
       (response 200 [("status", "OK"); ("email", "")])
       {[ "status" := VStr "OK"; "email" := VStr "" ]}
  /\ ({[ "status" := VStr "OK"; "email" := VStr "" ]} : gmap string pyval)
       !! "email" = Some (VStr "")
  /\ exists u,
       saves (trace (snd (login (externals ok_empty no_verdict) nina_form None
                            world0))) = [u]
       /\ email u = VStr "unknown"
       /\ email u <> VStr "".
Proof.
  split; [unfold locally_rejected; evaluated |].
  split; [unfold remote_answer, well_formed; evaluated |].
  split; [vm_compute; reflexivity |].
  exists {| username := "nina"; email := VStr "unknown"; password := "p1";
            date_joined := 1000; primary_group_id := 4 |}.
  split; [vm_compute; reflexivity |].
  split; [reflexivity | discriminate].
Qed.

(** C3 (amended) at the request of the scenario: [nina] with password [p1],
    unknown locally, accepted remotely with an email. *)
Lemma login_auto_provision_record_witness :
  locally_rejected (externals ok_nina no_verdict) nina_form world0
  /\ remote_answer (externals ok_nina no_verdict) nina_form
       (response 200 [("status", "OK"); ("email", "nina@x.com")])
       {[ "status" := VStr "OK"; "email" := VStr "nina@x.com" ]}
  /\ ({[ "status" := VStr "OK"; "email" := VStr "nina@x.com" ]}
        : gmap string pyval) !! "status" = Some (VStr "OK")
  /\ saves (trace (snd (login (externals ok_nina no_verdict) nina_form None
                          world0))) = [nina]
  /\ store (snd (login (externals ok_nina no_verdict) nina_form None world0))
     = [alice; nina]
  /\ sessions (trace (snd (login (externals ok_nina no_verdict) nina_form None
                             world0))) = [(nina, VStr "p1")].
Proof.
  assert (locally_rejected (externals ok_nina no_verdict) nina_form world0)
    as Hloc by (unfold locally_rejected; evaluated).
  assert (remote_answer (externals ok_nina no_verdict) nina_form
            (response 200 [("status", "OK"); ("email", "nina@x.com")])
            {[ "status" := VStr "OK"; "email" := VStr "nina@x.com" ]}) as Hrem
    by (unfold remote_answer, well_formed; evaluated).
  assert (({[ "status" := VStr "OK"; "email" := VStr "nina@x.com" ]}
            : gmap string pyval) !! "status" = Some (VStr "OK")) as Hstatus
    by evaluated.
  pose proof (login_auto_provision_record (externals ok_nina no_verdict)
                nina_form None world0 _ _ Hloc Hrem Hstatus) as H.
  cbv zeta in H. destruct H as (Hsaves & Hrun).
  assert (User_save (externals ok_nina no_verdict) nina (store world0)
          = Ok [alice; nina]) as Hsave by evaluated.
  change (User_save (externals ok_nina no_verdict) nina (store world0))
    with (Demo.save_row nina [alice]) in Hsave.
  split; [exact Hloc |]. split; [exact Hrem |]. split; [exact Hstatus |].
  split; [rewrite Hsaves; vm_compute; reflexivity |].
  assert (({| username := login_data nina_form;
              email := if truthy
                            match ({[ "status" := VStr "OK";
                                      "email" := VStr "nina@x.com" ]}
                                     : gmap string pyval) !! "email" with
                            | Some e => e
                            | None => VNone
                            end
                       then match ({[ "status" := VStr "OK";
                                      "email" := VStr "nina@x.com" ]}
                                     : gmap string pyval) !! "email" with
                            | Some e => e
                            | None => VNone
                            end
                       else VStr "unknown";
              password := password_data nina_form;
              date_joined := utcnow world0;
              primary_group_id := 4 |}) = nina) as Hu by evaluated.
  rewrite Hu in Hrun.
  destruct (Hrun [alice; nina] Hsave) as (_ & Hstore & Hsess).
  split; [exact Hstore |]. rewrite Hsess. reflexivity.
Defined.

(** C4 at a concrete registration, once with a remote service that refuses
    and once with one that accepts: the same outcome for the user and the
    same store. *)
Lemma register_mirror_is_advisory_witness :
  is_authenticated (current_user world0) = false
  /\ register_valid bob_form = true
  /\ fst (create_cabinet_user (externals fail no_verdict) "bob" "pw"
            (VStr "bob@x.com") world_bob) = Ok false
  /\ fst (create_cabinet_user (externals ok_nina no_verdict) "bob" "pw"
            (VStr "bob@x.com") world_bob) = Ok true
  /\ user_visible (register (externals fail no_verdict) bob_form world0)
     = user_visible (register (externals ok_nina no_verdict) bob_form world0)
  /\ store (snd (register (externals fail no_verdict) bob_form world0))
     = [alice; bob]
  /\ store (snd (register (externals ok_nina no_verdict) bob_form world0))
     = [alice; bob].
Proof.
  assert (is_authenticated (current_user world0) = false) as Hcu by evaluated.
  assert (register_valid bob_form = true) as Hvalid by evaluated.
  assert (forall remote,
            RegisterForm_save (externals remote no_verdict)
              (register_form (externals remote no_verdict) bob_form)
              (store world0) = Ok (bob, [alice; bob])) as Hsave
    by (intros remote; reflexivity).
  assert (forall remote,
            create_cabinet_user (externals remote no_verdict) (username bob)
              (password bob) (email bob)
              (mkWorld [alice; bob] (current_user world0) (utcnow world0)
                 (trace world0 ++ [EvFormSave bob])%list)
            = create_cabinet_user (externals remote no_verdict) "bob" "pw"
                (VStr "bob@x.com") world_bob) as Hsame
    by (intros remote; reflexivity).
  assert (create_cabinet_user (externals fail no_verdict) "bob" "pw"
            (VStr "bob@x.com") world_bob
          = (Ok false,
             snd (create_cabinet_user (externals fail no_verdict) "bob" "pw"
                    (VStr "bob@x.com") world_bob))) as Hfail by evaluated.
  assert (create_cabinet_user (externals ok_nina no_verdict) "bob" "pw"
            (VStr "bob@x.com") world_bob
          = (Ok true,
             snd (create_cabinet_user (externals ok_nina no_verdict) "bob" "pw"
                    (VStr "bob@x.com") world_bob))) as Hok by evaluated.
  pose proof (register_mirror_is_advisory (externals fail no_verdict) bob_form
                world0 bob [alice; bob] false _ Hcu Hvalid (Hsave fail)
                (eq_trans (Hsame fail) Hfail)) as H1.
  pose proof (register_mirror_is_advisory (externals ok_nina no_verdict)
                bob_form world0 bob [alice; bob] true _ Hcu Hvalid
                (Hsave ok_nina) (eq_trans (Hsame ok_nina) Hok)) as H2.
  cbv zeta in H1, H2.
  destruct H1 as (Hv1 & Hs1 & _). destruct H2 as (Hv2 & Hs2 & _).
  split; [exact Hcu |]. split; [exact Hvalid |].
  split; [now rewrite Hfail |]. split; [now rewrite Hok |].
  split; [rewrite Hv1, Hv2; reflexivity |].
  split; assumption.
Defined.

(** X21 at two concrete attempts for [nina], refused remotely with a 200
    answer: in one store she has no account, in the other she has one under
    another password. *)
Lemma login_rejection_is_generic_witness :
  locally_rejected (externals fail no_verdict) nina_form world0
  /\ locally_rejected (externals fail no_verdict) nina_form world_known
  /\ remote_answer (externals fail no_verdict) nina_form
       (response 200 [("status", "FAIL")]) {[ "status" := VStr "FAIL" ]}
  /\ ({[ "status" := VStr "FAIL" ]} : gmap string pyval) !! "status"
     <> Some (VStr "OK")
  /\ fst (User_authenticate (externals fail no_verdict) (store world0)
            "nina" "p1") = None
  /\ fst (User_authenticate (externals fail no_verdict) (store world_known)
            "nina" "p1") <> None
  /\ user_visible (login (externals fail no_verdict) nina_form None world0)
     = (Ok (render_template "auth/login.html" (FLogin nina_form)),
        [("Wrong Username or Password.", "danger")], guest)
  /\ user_visible (login (externals fail no_verdict) nina_form None world0)
     = user_visible (login (externals fail no_verdict) nina_form None
                       world_known).
Proof.
  assert (locally_rejected (externals fail no_verdict) nina_form world0)
    as Hloc1 by (unfold locally_rejected; evaluated).
  assert (locally_rejected (externals fail no_verdict) nina_form world_known)
    as Hloc2 by (unfold locally_rejected; evaluated).
  assert (remote_answer (externals fail no_verdict) nina_form
            (response 200 [("status", "FAIL")]) {[ "status" := VStr "FAIL" ]})
    as Hrem by (unfold remote_answer, well_formed; evaluated).
  assert (({[ "status" := VStr "FAIL" ]} : gmap string pyval) !! "status"
          <> Some (VStr "OK")) as Hno by evaluated.
  pose proof (login_rejection_is_generic (externals fail no_verdict)
                (externals fail no_verdict) nina_form None world0 world_known
                _ _ _ _ Hloc1 Hrem Hno Hloc2 Hrem Hno eq_refl eq_refl eq_refl)
    as H.
  destruct H as (Hview & Hsame).
  split; [exact Hloc1 |]. split; [exact Hloc2 |]. split; [exact Hrem |].
  split; [exact Hno |]. split; [vm_compute; reflexivity |].
  split; [vm_compute; discriminate |].
  split; [rewrite Hview; reflexivity | exact Hsame].
Defined.

(** C5 at two concrete attempts for [nina], unknown locally: the remote
    service refuses once with a 200 answer and once with a 401 answer, both
    with the body [FAIL]. *)
Lemma login_rejection_by_status_code_is_visible_witness :
  locally_rejected (externals fail no_verdict) nina_form world0
  /\ locally_rejected (externals DemoSession.unauthorized no_verdict)
       nina_form world0
  /\ remote_answer (externals fail no_verdict) nina_form
       (response 200 [("status", "FAIL")]) {[ "status" := VStr "FAIL" ]}
  /\ requests_post (externals DemoSession.unauthorized no_verdict)
       (CABINET_AUTH (externals DemoSession.unauthorized no_verdict))
       (auth_payload (login_data nina_form) (password_data nina_form))
     = Ok (response 401 [("status", "FAIL")])
  /\ status_code (response 401 [("status", "FAIL")]) <> 200
  /\ json_loads (externals DemoSession.unauthorized no_verdict)
       (text (response 401 [("status", "FAIL")]))
     = Ok (VDict {[ "status" := VStr "FAIL" ]})
  /\ ({[ "status" := VStr "FAIL" ]} : gmap string pyval) !! "status"
     <> Some (VStr "OK")
  /\ user_visible (login (externals fail no_verdict) nina_form None world0)
     = (Ok (render_template "auth/login.html" (FLogin nina_form)),
        [("Wrong Username or Password.", "danger")], guest)
  /\ user_visible (login (externals DemoSession.unauthorized no_verdict)
                     nina_form None world0)
     = (Raise (TypeError "'bool' object is not iterable"), [], guest)
  /\ user_visible (login (externals fail no_verdict) nina_form None world0)
     <> user_visible (login (externals DemoSession.unauthorized no_verdict)
                        nina_form None world0).
Proof.
  assert (locally_rejected (externals fail no_verdict) nina_form world0)
    as Hloc1 by (unfold locally_rejected; evaluated).
  assert (locally_rejected (externals DemoSession.unauthorized no_verdict)
            nina_form world0) as Hloc2 by (unfold locally_rejected; evaluated).
  assert (remote_answer (externals fail no_verdict) nina_form
            (response 200 [("status", "FAIL")]) {[ "status" := VStr "FAIL" ]})
    as Hrem by (unfold remote_answer, well_formed; evaluated).
  assert (requests_post (externals DemoSession.unauthorized no_verdict)
            (CABINET_AUTH (externals DemoSession.unauthorized no_verdict))
            (auth_payload (login_data nina_form) (password_data nina_form))
          = Ok (response 401 [("status", "FAIL")])) as Hpost by evaluated.
  assert (status_code (response 401 [("status", "FAIL")]) <> 200) as Hcode
    by evaluated.
  assert (json_loads (externals DemoSession.unauthorized no_verdict)
            (text (response 401 [("status", "FAIL")]))
          = Ok (VDict {[ "status" := VStr "FAIL" ]})) as Hjson by evaluated.
  assert (({[ "status" := VStr "FAIL" ]} : gmap string pyval) !! "status"
          <> Some (VStr "OK")) as Hno by evaluated.
  pose proof (login_rejection_by_status_code_is_visible
                (externals fail no_verdict)
                (externals DemoSession.unauthorized no_verdict)
                nina_form None world0 world0 _ _ _ _
                Hloc1 Hrem Hno Hloc2 Hpost Hcode Hjson Hno) as H.
  destruct H as (_ & _ & _ & Hdiffer).
  split; [exact Hloc1 |]. split; [exact Hloc2 |]. split; [exact Hrem |].
  split; [exact Hpost |]. split; [exact Hcode |]. split; [exact Hjson |].
  split; [exact Hno |].
  split; [vm_compute; reflexivity |]. split; [vm_compute; reflexivity |].
  exact Hdiffer.
Defined.

(** C6 at a concrete submission for which the token service reports both
    [expired] and [invalid]: the invalid-token message is the one shown and
    nothing is stored. *)
Lemma reset_password_invalid_before_expired_witness :
  is_anonymous (current_user world0) = true
  /\ reset_valid (reset_form "alice@x.com") = true
  /\ filter_by_email_first (externals fail (true, true, VBool true))
       (store world0) (reset_email (reset_form "alice@x.com")) = Some alice
  /\ user_visible (reset_password (externals fail (true, true, VBool true))
                     (reset_form "alice@x.com") "token-in-url" world0)
     = (Ok (redirect (url_for "auth.forgot_password" [])),
        [("Your Password Token is invalid.", "danger")], guest)
  /\ store (snd (reset_password (externals fail (true, true, VBool true))
                   (reset_form "alice@x.com") "token-in-url" world0))
     = [alice].
Proof.
  assert (is_anonymous (current_user world0) = true) as Hcu by evaluated.
  assert (reset_valid (reset_form "alice@x.com") = true) as Hvalid by evaluated.
  assert (filter_by_email_first (externals fail (true, true, VBool true))
            (store world0) (reset_email (reset_form "alice@x.com"))
          = Some alice) as Huser by evaluated.
  pose proof (reset_password_invalid_before_expired
                (externals fail (true, true, VBool true))
                (reset_form "alice@x.com") "token-in-url" world0
                Hcu Hvalid) as H.
  cbv zeta in H. destruct H as (Hinvalid & _).
  specialize (Hinvalid alice true (VBool true) Huser eq_refl).
  split; [exact Hcu |]. split; [exact Hvalid |]. split; [exact Huser |].
  rewrite Hinvalid. split; reflexivity.
Defined.

(** C7 at two concrete requests: an address that no account has, and the
    address of [alice]. *)
Lemma forgot_password_token_only_for_account_witness :
  is_anonymous (current_user world0) = true
  /\ forgot_valid (forgot_form "nobody@x.com") = true
  /\ forgot_valid (forgot_form "alice@x.com") = true
  /\ trace (snd (forgot_password (externals fail no_verdict)
                   (forgot_form "nobody@x.com") world0))
     = [EvFlash
          "You have entered a Username or E-Mail Address that is not linked with your account."
          "danger"]
  /\ trace (snd (forgot_password (externals fail no_verdict)
                   (forgot_form "alice@x.com") world0))
     = [EvMakeToken alice "token-for-alice";
        EvSendToken alice "token-for-alice";
        EvFlash "E-Mail sent! Please check your inbox." "info"].
Proof.
  assert (is_anonymous (current_user world0) = true) as Hcu by evaluated.
  assert (forgot_valid (forgot_form "nobody@x.com") = true) as Hv1 by evaluated.
  assert (forgot_valid (forgot_form "alice@x.com") = true) as Hv2 by evaluated.
  pose proof (forgot_password_token_only_for_account
                (externals fail no_verdict) (forgot_form "nobody@x.com")
                world0 Hcu Hv1) as H1.
  pose proof (forgot_password_token_only_for_account
                (externals fail no_verdict) (forgot_form "alice@x.com")
                world0 Hcu Hv2) as H2.
  destruct H1 as (Hnone & _). destruct H2 as (_ & Hsome).
  assert (filter_by_email_first (externals fail no_verdict) (store world0)
            (forgot_email (forgot_form "nobody@x.com")) = None) as Hn
    by evaluated.
  assert (filter_by_email_first (externals fail no_verdict) (store world0)
            (forgot_email (forgot_form "alice@x.com")) = Some alice) as Hs
    by evaluated.
  specialize (Hnone Hn). specialize (Hsome alice Hs).
  split; [exact Hcu |]. split; [exact Hv1 |]. split; [exact Hv2 |].
  rewrite Hnone, Hsome. split; reflexivity.
Defined.

(** C8 at a concrete submission whose email has no account. *)
Lemma reset_password_verifies_unchecked_lookup_witness :
  is_anonymous (current_user world0) = true
  /\ reset_valid (reset_form "nobody@x.com") = true
  /\ filter_by_email_first (externals fail no_verdict) (store world0)
       (reset_email (reset_form "nobody@x.com")) = None
  /\ reset_password (externals fail no_verdict) (reset_form "nobody@x.com")
       "token-in-url" world0
     = (Raise (AttributeError
                 "'NoneType' object has no attribute 'verify_reset_token'"),
        world0).
Proof.
  assert (is_anonymous (current_user world0) = true) as Hcu by evaluated.
  assert (reset_valid (reset_form "nobody@x.com") = true) as Hvalid
    by evaluated.
  assert (filter_by_email_first (externals fail no_verdict) (store world0)
            (reset_email (reset_form "nobody@x.com")) = None) as Hnone
    by evaluated.
  pose proof (reset_password_verifies_unchecked_lookup
                (externals fail no_verdict) (reset_form "nobody@x.com")
                "token-in-url" world0 Hcu Hvalid) as H.
  destruct H as (Hraise & _).
  split; [exact Hcu |]. split; [exact Hvalid |]. split; [exact Hnone |].
  exact (Hraise Hnone).
Defined.

(** C9 at two concrete logins: [alice] accepted locally with remember-me
    ticked, and [nina] accepted remotely. *)
Lemma login_remember_argument_witness :
  is_authenticated (current_user world0) = false
  /\ login_valid alice_form = true
  /\ login_valid nina_form = true
  /\ sessions (trace (snd (login (externals ok_nina no_verdict) alice_form
                             None world0))) = [(alice, VBool true)]
  /\ sessions (trace (snd (login (externals ok_nina no_verdict) nina_form
                             None world0))) = [(nina, VStr "p1")].
Proof.
  assert (is_authenticated (current_user world0) = false) as Hcu by evaluated.
  assert (login_valid alice_form = true) as Hv1 by evaluated.
  assert (login_valid nina_form = true) as Hv2 by evaluated.
  pose proof (login_remember_argument (externals ok_nina no_verdict)
                alice_form None world0 Hcu Hv1) as H1.
  pose proof (login_remember_argument (externals ok_nina no_verdict)
                nina_form None world0 Hcu Hv2) as H2.
  cbv zeta in H1, H2.
  destruct H1 as (Hlocal & _). destruct H2 as (_ & Hremote & _).
  assert (User_authenticate (externals ok_nina no_verdict) (store world0)
            (login_data alice_form) (password_data alice_form)
          = (Some alice, true)) as Ha by evaluated.
  specialize (Hlocal alice Ha).
  assert (accepted (User_authenticate (externals ok_nina no_verdict)
                      (store world0) (login_data nina_form)
                      (password_data nina_form)) = false) as Hn by evaluated.
  assert (remote_answer (externals ok_nina no_verdict) nina_form
            (response 200 [("status", "OK"); ("email", "nina@x.com")])
            {[ "status" := VStr "OK"; "email" := VStr "nina@x.com" ]}) as Hrem
    by (unfold remote_answer, well_formed; evaluated).
  assert (({[ "status" := VStr "OK"; "email" := VStr "nina@x.com" ]}
            : gmap string pyval) !! "status" = Some (VStr "OK")) as Hstatus
    by evaluated.
  assert (provisioned nina_form
            {[ "status" := VStr "OK"; "email" := VStr "nina@x.com" ]}
            (utcnow world0) = nina) as Hu by evaluated.
  specialize (Hremote _ _ [alice; nina] Hn Hrem Hstatus).
  rewrite Hu in Hremote.
  assert (User_save (externals ok_nina no_verdict) nina (store world0)
          = Ok [alice; nina]) as Hsave by evaluated.
  specialize (Hremote Hsave).
  split; [exact Hcu |]. split; [exact Hv1 |]. split; [exact Hv2 |].
  rewrite Hlocal, Hremote. split; reflexivity.
Defined.

(** C10 at concrete requests by [alice], logged in, with a profile rule
    that takes the username: [login] ends with the [BuildError], the other
    three views redirect, and the world is the same after each. *)
Lemma logged_in_requests_change_nothing_witness :
  is_authenticated (current_user (world_of (principal_of alice))) = true
  /\ is_anonymous (current_user (world_of (principal_of alice))) = false
  /\ profile_needs_username (externals ok_nina no_verdict) = true
  /\ login (externals ok_nina no_verdict) alice_form None
       (world_of (principal_of alice))
     = (Raise (External "BuildError"), world_of (principal_of alice))
  /\ register (externals ok_nina no_verdict) bob_form
       (world_of (principal_of alice))
     = (Ok (redirect (url_for "user.profile" [("username", "alice")])),
        world_of (principal_of alice))
  /\ snd (forgot_password (externals ok_nina no_verdict)
            (forgot_form "alice@x.com") (world_of (principal_of alice)))
     = world_of (principal_of alice)
  /\ snd (reset_password (externals ok_nina no_verdict)
            (reset_form "alice@x.com") "token-in-url"
            (world_of (principal_of alice)))
     = world_of (principal_of alice).
Proof.
  assert (is_authenticated (current_user (world_of (principal_of alice)))
          = true) as Hauth by evaluated.
  assert (is_anonymous (current_user (world_of (principal_of alice)))
          = false) as Hanon by evaluated.
  pose proof (logged_in_requests_change_nothing (externals ok_nina no_verdict)
                (world_of (principal_of alice)) alice_form None bob_form
                (forgot_form "alice@x.com") (reset_form "alice@x.com")
                "token-in-url") as H.
  destruct H as (H1 & H2).
  destruct (H1 Hauth) as (Hlogin & Hregister).
  destruct (H2 Hanon) as (Hforgot & Hreset).
  split; [exact Hauth |]. split; [exact Hanon |]. split; [reflexivity |].
  split; [exact Hlogin |]. split; [exact Hregister |].
  rewrite Hforgot, Hreset. split; reflexivity.
Defined.

End Runs.

(** * Further properties of the views *)

Section LoginShape.

Context {Store : Type}.
Variable ext : Externals Store.
Implicit Types w : World Store.

(** The four ways a call of [auth_cabinet_user] can end. *)
Lemma auth_cabinet_user_outcomes username password w :
  let sent := EvPost (CABINET_AUTH ext) (auth_payload username password) in
  (exists e,
      auth_cabinet_user ext username password w = (Raise e, after w [sent]))
  \/ auth_cabinet_user ext username password w =
       (Ok (VBool false),
        after w [sent;
                 EvLog LError
                   ("requests.post to " ++ CABINET_AUTH ext ++ " failed")])
  \/ (exists body,
       auth_cabinet_user ext username password w =
         (Ok (VTuple [VBool false; VNone]),
          after w [sent; EvLog LWarning ("auth_cabinet_user: " ++ body)]))
  \/ (exists d,
       auth_cabinet_user ext username password w =
         (Ok (VTuple [VBool true; dict_get d "email"]), after w [sent])).
Proof.
  intros sent. subst sent.
  cbv beta iota zeta delta
    [auth_cabinet_user post bind emit lift ret logger_error logger_warning
     res_get raise].
  destruct (requests_post ext _ _) as [resp | e];
    [| left; exists e; same_world].
  fold (transport_failed resp). destruct (transport_failed resp);
    [right; left; same_world |].
  destruct (json_loads ext (text resp)) as [res | e];
    [| left; exists e; same_world].
  destruct res; try (left; eexists; same_world).
  destruct (eq_str (dict_get d "status") "OK").
  - right; right; right. exists d. same_world.
  - right; right; left. exists (text resp). same_world.
Qed.

(** Every run of [login] adds to the trace one of the event lists of
    [login_adds]. *)
Lemma login_adds_any form next w :
  exists evs,
    trace (snd (login ext form next w)) = (trace w ++ evs)%list
    /\ login_adds ext form (utcnow w) evs.
Proof.
  assert (exists evs, trace w = (trace w ++ evs)%list
                      /\ login_adds ext form (utcnow w) evs) as Hnone
    by (exists []; split; [now rewrite app_nil_r | constructor]).
  unfold login. unfold bind at 1, get_current_user.
  destruct (is_authenticated (current_user w));
    [unfold redirect_to_bare_profile;
     destruct (profile_needs_username ext); exact Hnone |].
  destruct (login_valid form); [| exact Hnone].
  unfold bind at 1, get_store.
  assert (exists evs,
    trace (snd ((r <- auth_cabinet_user ext (login_data form) (password_data form) ;;
      p <- unpack2 r ;;
      (let (result, email) := p in
       if truthy result
       then
        now <- get_utcnow ;;
        (let user :=
           {| username := login_data form;
              email := py_or email (VStr "unknown");
              password := password_data form;
              date_joined := now;
              primary_group_id := 4 |} in
         save ext user ;;;
         login_user user (VStr (password_data form)) ;;;
         ret (redirect (next_or_index next)))
       else
        flash (gettext ext "Wrong Username or Password.") "danger" ;;;
        ret (render_template "auth/login.html" (FLogin form)))) w))
      = (trace w ++ evs)%list
    /\ login_adds ext form (utcnow w) evs) as Hremote.
  { destruct (auth_cabinet_user_outcomes (login_data form) (password_data form) w)
      as [(e & H) | [H | [(body & H) | (d & H)]]]; step H.
    - eexists; split; [reflexivity | constructor].
    - eexists; split; [reflexivity | constructor].
    - eexists; split; [same_world | constructor].
    - cbv beta iota zeta delta
        [bind unpack2 ret get_utcnow save login_user emit get_store lift
         put_store put_current_user after truthy].
      simpl. fold (provisioned form d (utcnow w)).
      destruct (User_save ext (provisioned form d (utcnow w)) (store w));
        simpl; rewrite <- ?app_assoc;
        (eexists; split; [reflexivity | constructor]). }
  destruct (User_authenticate ext (store w) (login_data form) (password_data form))
    as [[u |] [|]]; try exact Hremote.
  exists [EvLoginUser u (VBool (remember_me_data form))].
  split; [reflexivity | constructor].
Qed.

Lemma provisioned_email_truthy form (d : gmap string pyval) now :
  truthy (email (provisioned form d now)) = true.
Proof.
  unfold provisioned, py_or. simpl.
  destruct (truthy (dict_get d "email")) eqn:E; [exact E | reflexivity].
Qed.

(** X1. Whatever the request and whatever the remote service does, [login]
    flashes nothing or the one message [Wrong Username or Password.]: no
    data of the remote answer and no other text reaches the user. *)
Theorem login_flashes_only_generic form next w :
  flashes (trace (snd (login ext form next w))) = flashes (trace w)
  \/ flashes (trace (snd (login ext form next w)))
     = (flashes (trace w) ++
        [(gettext ext "Wrong Username or Password.", "danger")])%list.
Proof.
  destruct (login_adds_any form next w) as (evs & -> & Hevs).
  rewrite flashes_app.
  destruct Hevs; simpl; rewrite ?app_nil_r; auto.
Qed.

(** X2. Whatever the request, [login] calls [save] at most once, and only
    on a record that carries the submitted login and password, group 4, the
    current time and an email that is never empty (never falsy). *)
Theorem login_saves_only_provisioned form next w :
  saves (trace (snd (login ext form next w))) = saves (trace w)
  \/ exists u,
       saves (trace (snd (login ext form next w))) = (saves (trace w) ++ [u])%list
       /\ username u = login_data form
       /\ password u = password_data form
       /\ truthy (email u) = true
       /\ primary_group_id u = 4
       /\ date_joined u = utcnow w.
Proof.
  destruct (login_adds_any form next w) as (evs & -> & Hevs).
  rewrite saves_app.
  destruct Hevs; simpl; rewrite ?app_nil_r; auto;
    right; exists (provisioned form d (utcnow w));
    repeat split; auto using provisioned_email_truthy.
Qed.

(** X3. Whatever the request, [login] posts at most once, to the
    [CABINET_AUTH] endpoint, and the body holds the submitted login and
    password. *)
Theorem login_posts_at_most_once form next w :
  posts (trace (snd (login ext form next w))) = posts (trace w)
  \/ posts (trace (snd (login ext form next w)))
     = (posts (trace w) ++
        [(CABINET_AUTH ext,
          auth_payload (login_data form) (password_data form))])%list.
Proof.
  destruct (login_adds_any form next w) as (evs & -> & Hevs).
  unfold posts. rewrite omap_app.
  destruct Hevs; simpl; rewrite ?app_nil_r; auto.
Qed.

(** X4. When the local verifier accepts, [login] makes no remote call and
    stores nothing; it starts the session and redirects to the [next]
    argument as given when that is not empty, to the forum index
    otherwise. *)
Theorem login_local_success_stays_local form next w u :
  is_authenticated (current_user w) = false ->
  login_valid form = true ->
  User_authenticate ext (store w) (login_data form) (password_data form)
    = (Some u, true) ->
  let run := login ext form next w in
  posts (trace (snd run)) = posts (trace w)
  /\ saves (trace (snd run)) = saves (trace w)
  /\ store (snd run) = store w
  /\ current_user (snd run) = principal_of u
  /\ (forall target, next = Some target -> target <> "" ->
      fst run = Ok (redirect (url_raw target)))
  /\ (next = None \/ next = Some "" ->
      fst run = Ok (redirect (url_for "forum.index" []))).
Proof.
  intros Hcu Hvalid Hlocal run. subst run.
  rewrite (login_local_accepted ext _ next _ _ Hcu Hvalid Hlocal). simpl.
  unfold posts. rewrite omap_app, saves_app. simpl. rewrite !app_nil_r.
  repeat split.
  - intros target -> Hne. simpl. apply String.eqb_neq in Hne. now rewrite Hne.
  - intros [-> | ->]; reflexivity.
Qed.

(** X5. A login that the local verifier refuses and that the remote
    service refuses with a well-formed answer leaves the store and the
    principal as they were: nothing is saved and no session starts. *)
Theorem login_rejection_changes_nothing form next w resp d :
  locally_rejected ext form w ->
  remote_answer ext form resp d ->
  d !! "status" <> Some (VStr "OK") ->
  let run := login ext form next w in
  store (snd run) = store w
  /\ current_user (snd run) = current_user w
  /\ saves (trace (snd run)) = saves (trace w)
  /\ sessions (trace (snd run)) = sessions (trace w).
Proof.
  intros Hloc Hrem Hno run. subst run.
  rewrite (login_both_rejected ext _ next _ _ _ Hloc Hrem Hno). simpl.
  rewrite saves_app, sessions_app. simpl. rewrite !app_nil_r. auto.
Qed.

(** X6. When the remote service accepts but the storage refuses the new
    record (for instance a username that exists under another password),
    [login] ends with the storage's exception: no session starts, the
    principal and the store stay as they were. *)
Theorem login_provision_save_failure form next w resp d e :
  locally_rejected ext form w ->
  remote_answer ext form resp d ->
  d !! "status" = Some (VStr "OK") ->
  User_save ext (provisioned form d (utcnow w)) (store w) = Raise e ->
  let run := login ext form next w in
  fst run = Raise e
  /\ store (snd run) = store w
  /\ current_user (snd run) = current_user w
  /\ sessions (trace (snd run)) = sessions (trace w)
  /\ flashes (trace (snd run)) = flashes (trace w).
Proof.
  intros Hloc Hrem Hok Hsave run. subst run.
  rewrite (login_remote_accepted ext _ next _ _ _ Hloc Hrem Hok), Hsave. simpl.
  rewrite sessions_app, flashes_app. simpl. rewrite !app_nil_r. auto.
Qed.

(** X7. An exception of [requests.post] (the remote service cannot be
    reached) is not caught: [login] ends with that exception after the post,
    without log entry, flash or session. *)
Theorem login_remote_unreachable form next w e :
  locally_rejected ext form w ->
  requests_post ext (CABINET_AUTH ext)
    (auth_payload (login_data form) (password_data form)) = Raise e ->
  login ext form next w =
    (Raise e,
     after w [EvPost (CABINET_AUTH ext)
                (auth_payload (login_data form) (password_data form))]).
Proof.
  intros Hloc Hpost.
  assert (auth_cabinet_user ext (login_data form) (password_data form) w =
            (Raise e,
             after w [EvPost (CABINET_AUTH ext)
                        (auth_payload (login_data form) (password_data form))]))
    as Hremote.
  { unfold auth_cabinet_user, post, bind, emit, lift. simpl. now rewrite Hpost. }
  enter_remote Hloc; step Hremote; reflexivity.
Qed.

(** X8. A 200 answer whose body is not JSON, or is JSON but not an object,
    is not caught either: [login] ends with the decoder's exception, or with
    an [AttributeError] for the missing [get], after the post and without
    log entry or flash. *)
Theorem login_remote_body_not_an_object form next w resp :
  locally_rejected ext form w ->
  requests_post ext (CABINET_AUTH ext)
    (auth_payload (login_data form) (password_data form)) = Ok resp ->
  status_code resp = 200 ->
  text resp <> "" ->
  let sent := EvPost (CABINET_AUTH ext)
                (auth_payload (login_data form) (password_data form)) in
  (forall e, json_loads ext (text resp) = Raise e ->
             login ext form next w = (Raise e, after w [sent]))
  /\ (forall v, json_loads ext (text resp) = Ok v ->
                (forall d, v <> VDict d) ->
                login ext form next w =
                  (Raise (AttributeError "object has no attribute 'get'"),
                   after w [sent])).
Proof.
  intros Hloc Hpost Hcode Htext sent. subst sent.
  assert (forall r,
    auth_cabinet_user ext (login_data form) (password_data form) w =
      (Raise r,
       after w [EvPost (CABINET_AUTH ext)
                  (auth_payload (login_data form) (password_data form))]) ->
    login ext form next w =
      (Raise r,
       after w [EvPost (CABINET_AUTH ext)
                  (auth_payload (login_data form) (password_data form))]))
    as Hthrough.
  { intros r Hremote. enter_remote Hloc; step Hremote; reflexivity. }
  split.
  - intros e Hjson. apply Hthrough. unfold auth_cabinet_user.
    step (post_ok ext _ _ _ w Hpost).
    fold (transport_failed resp). rewrite (transport_failed_false _ Hcode Htext).
    unfold bind, lift. now rewrite Hjson.
  - intros v Hjson Hno. apply Hthrough. unfold auth_cabinet_user.
    step (post_ok ext _ _ _ w Hpost).
    fold (transport_failed resp). rewrite (transport_failed_false _ Hcode Htext).
    unfold bind, lift. rewrite Hjson.
    destruct v; try reflexivity. now destruct (Hno d).
Qed.

End LoginShape.

Section MirrorClient.

Context {Store : Type}.
Variable ext : Externals Store.
Implicit Types w : World Store.

(** A call of [create_cabinet_user] posts once, first, and then only
    logs. *)
Lemma create_cabinet_user_events username password email w :
  exists logs,
    snd (create_cabinet_user ext username password email w)
      = after w (EvPost (CABINET_REGISTER ext)
                   (register_payload username password email) :: logs)
    /\ forallb is_log logs = true.
Proof.
  cbv beta iota zeta delta
    [create_cabinet_user post bind emit lift ret logger_error logger_warning
     res_get raise].
  destruct (requests_post ext _ _) as [resp | e];
    [| eexists; split; [same_world | auto]].
  fold (transport_failed resp). destruct (transport_failed resp);
    [eexists; split; [same_world | auto] |].
  destruct (json_loads ext (text resp)) as [res | e];
    [| eexists; split; [same_world | auto]].
  destruct res; try (eexists; split; [same_world | auto]).
  destruct (eq_str (dict_get d "status") "OK");
    eexists; (split; [same_world | auto]).
Qed.

(** X9. On a well-formed answer [create_cabinet_user] returns [True]
    exactly when the [status] field is the string [OK]; otherwise it returns
    [False] and logs the raw body as a warning. It returns a plain boolean
    on every branch. *)
Theorem create_cabinet_user_well_formed username password email resp d w :
  well_formed ext (CABINET_REGISTER ext)
    (register_payload username password email) resp d ->
  exists (ok : bool) (logged : list Event),
    create_cabinet_user ext username password email w =
      (Ok ok,
       after w (EvPost (CABINET_REGISTER ext)
                  (register_payload username password email) :: logged))
    /\ (ok = true <-> d !! "status" = Some (VStr "OK"))
    /\ (ok = true -> logged = [])
    /\ (ok = false ->
        logged = [EvLog LWarning ("create_cabinet_user: " ++ text resp)]).
Proof.
  intros (Hpost & Hcode & Htext & Hjson).
  unfold create_cabinet_user. step (post_ok ext _ _ _ w Hpost).
  fold (transport_failed resp). rewrite (transport_failed_false _ Hcode Htext).
  unfold bind, lift. rewrite Hjson. simpl.
  destruct (eq_str (dict_get d "status") "OK") eqn:E; simpl.
  - exists true, []. split; [same_world |].
    apply status_ok_iff in E. repeat split; auto; discriminate.
  - exists false, [EvLog LWarning ("create_cabinet_user: " ++ text resp)].
    split; [same_world |].
    repeat split; auto; try discriminate.
    intros H. apply status_ok_iff in H. congruence.
Qed.

(** X10. An answer whose status code is not exactly 200 (a 201 or 204 as
    well as a 4xx or 5xx), or whose body is empty, makes
    [create_cabinet_user] log an error and return [False] without looking at
    the body: the result does not depend on what the body holds or on
    whether it can be decoded. *)
Theorem create_cabinet_user_transport_failure username password email resp w :
  requests_post ext (CABINET_REGISTER ext)
    (register_payload username password email) = Ok resp ->
  status_code resp <> 200 \/ text resp = "" ->
  create_cabinet_user ext username password email w =
    (Ok false,
     after w [EvPost (CABINET_REGISTER ext)
                (register_payload username password email);
              EvLog LError
                ("requests.post to " ++ CABINET_REGISTER ext ++ " failed")]).
Proof.
  intros Hpost Hbad. unfold create_cabinet_user.
  step (post_ok ext _ _ _ w Hpost).
  fold (transport_failed resp). rewrite (transport_failed_true _ Hbad).
  same_world.
Qed.

Lemma form_save_ok form w user s' :
  RegisterForm_save ext form (store w) = Ok (user, s') ->
  form_save ext form w =
    (Ok user,
     mkWorld s' (current_user w) (utcnow w) (trace w ++ [EvFormSave user])%list).
Proof.
  intros H. unfold form_save, bind, get_store, lift, emit, put_store. simpl.
  now rewrite H.
Qed.

(** X11. When [requests.post] raises during the mirror call, [register]
    ends with that exception after the account was stored: the store holds
    the new account, but no session starts and nothing is flashed. *)
Theorem register_mirror_unreachable form0 w user s' e :
  is_authenticated (current_user w) = false ->
  register_valid form0 = true ->
  RegisterForm_save ext (register_form ext form0) (store w) = Ok (user, s') ->
  requests_post ext (CABINET_REGISTER ext)
    (register_payload (username user) (password user) (email user)) = Raise e ->
  register ext form0 w =
    (Raise e,
     mkWorld s' (current_user w) (utcnow w)
       (trace w ++
        [EvFormSave user;
         EvPost (CABINET_REGISTER ext)
           (register_payload (username user) (password user) (email user))])%list).
Proof.
  intros Hcu Hvalid Hsave Hpost. unfold register.
  unfold bind at 1, get_current_user. rewrite Hcu.
  change (register_valid (register_form ext form0)) with (register_valid form0).
  rewrite Hvalid. step (form_save_ok _ w _ _ Hsave).
  unfold create_cabinet_user, post, bind, emit, lift. simpl. rewrite Hpost.
  now rewrite <- app_assoc.
Qed.

(** X12. When [form.save()] raises, [register] ends with that exception
    and has done nothing: no remote call, no session, no flash, the store as
    it was. *)
Theorem register_save_failure form0 w e :
  is_authenticated (current_user w) = false ->
  register_valid form0 = true ->
  RegisterForm_save ext (register_form ext form0) (store w) = Raise e ->
  register ext form0 w = (Raise e, w).
Proof.
  intros Hcu Hvalid Hsave. unfold register.
  unfold bind at 1, get_current_user. rewrite Hcu.
  change (register_valid (register_form ext form0)) with (register_valid form0).
  rewrite Hvalid.
  unfold form_save, bind, get_store, lift. simpl. now rewrite Hsave.
Qed.

(** X13. In a registration whose mirror call returns, the calls happen in
    this order: the account is stored, one post goes to [CABINET_REGISTER]
    with the username, the password attribute and the email of the stored
    account, the mirror may log, then the session starts without
    remember-me and the thanks are flashed. *)
Theorem register_call_order form0 w user s' (b : bool) wm :
  is_authenticated (current_user w) = false ->
  register_valid form0 = true ->
  RegisterForm_save ext (register_form ext form0) (store w) = Ok (user, s') ->
  create_cabinet_user ext (username user) (password user) (email user)
    (mkWorld s' (current_user w) (utcnow w) (trace w ++ [EvFormSave user])%list)
    = (Ok b, wm) ->
  exists logs,
    trace (snd (register ext form0 w))
      = (trace w ++
         [EvFormSave user;
          EvPost (CABINET_REGISTER ext)
            (register_payload (username user) (password user) (email user))]
         ++ logs ++
         [EvLoginUser user (VBool false);
          EvFlash (gettext ext "Thanks for registering.") "success"])%list
    /\ forallb is_log logs = true.
Proof.
  intros Hcu Hvalid Hsave Hmirror.
  destruct (create_cabinet_user_events (username user) (password user)
              (email user)
              (mkWorld s' (current_user w) (utcnow w)
                 (trace w ++ [EvFormSave user])%list))
    as (logs & Hwm & Hlogs).
  rewrite Hmirror in Hwm. simpl in Hwm. subst wm.
  exists logs. split; [| exact Hlogs].
  unfold register. unfold bind at 1, get_current_user. rewrite Hcu.
  change (register_valid (register_form ext form0)) with (register_valid form0).
  rewrite Hvalid. step (form_save_ok _ w _ _ Hsave). step Hmirror.
  cbv beta iota zeta delta
    [bind login_user flash emit put_current_user get_current_user ret after].
  simpl. now rewrite <- !app_assoc.
Qed.

End MirrorClient.

Section FormsAndReset.

Context {Store : Type}.
Variable ext : Externals Store.
Implicit Types w : World Store.

(** X14. A request whose form does not validate (a plain GET, or a
    submission with errors) only renders the page of the view: the world is
    left as it was, so nothing is flashed and no collaborator is called.
    [reset_password] renders the form with its token field replaced by the
    token of the URL. *)
Theorem unvalidated_forms_only_render w (lf : LoginForm) (next : option string)
    (rf : RegisterForm) (ff : ForgotPasswordForm) (pf : ResetPasswordForm)
    (token : string) :
  (is_authenticated (current_user w) = false ->
   (login_valid lf = false ->
    login ext lf next w =
      (Ok (render_template "auth/login.html" (FLogin lf)), w))
   /\ (register_valid rf = false ->
       register ext rf w =
         (Ok (render_template "auth/register.html"
                (FRegister (register_form ext rf))), w)))
  /\ (is_anonymous (current_user w) = true ->
      (forgot_valid ff = false ->
       forgot_password ext ff w =
         (Ok (render_template "auth/forgot_password.html" (FForgot ff)), w))
      /\ (reset_valid pf = false ->
          reset_password ext pf token w =
            (Ok (render_template "auth/reset_password.html"
                   (FReset (set_token pf token))), w))).
Proof.
  split; intros Hcu; split; intros Hvalid.
  - unfold login, bind, get_current_user. now rewrite Hcu, Hvalid.
  - unfold register, bind, get_current_user. rewrite Hcu.
    change (register_valid (register_form ext rf)) with (register_valid rf).
    now rewrite Hvalid.
  - unfold forgot_password, bind, get_current_user. now rewrite Hcu, Hvalid.
  - unfold reset_password, bind, get_current_user. now rewrite Hcu, Hvalid.
Qed.

(** X15. The token in the URL of [reset_password] is never verified: two
    requests that differ only in that token have the same effects, and the
    same result except that the page, when it is rendered again, carries
    the URL token in its token field. What is verified is the token field
    of the submitted form. *)
Theorem reset_password_ignores_url_token form token1 token2 w :
  snd (reset_password ext form token1 w) = snd (reset_password ext form token2 w)
  /\ (fst (reset_password ext form token1 w)
      = fst (reset_password ext form token2 w)
      \/ (fst (reset_password ext form token1 w)
          = Ok (render_template "auth/reset_password.html"
                  (FReset (set_token form token1)))
          /\ fst (reset_password ext form token2 w)
             = Ok (render_template "auth/reset_password.html"
                     (FReset (set_token form token2))))).
Proof.
  destruct (is_anonymous (current_user w)) eqn:Hcu.
  2: { unfold reset_password, bind, get_current_user. rewrite Hcu. simpl. auto. }
  destruct (reset_valid form) eqn:Hvalid.
  2: { unfold reset_password, bind, get_current_user. rewrite Hcu, Hvalid.
       simpl. auto. }
  destruct (filter_by_email_first ext (store w) (reset_email form))
    as [u |] eqn:Huser.
  2: { assert (forall t, reset_password ext form t w =
                 (Raise (AttributeError
                    "'NoneType' object has no attribute 'verify_reset_token'"),
                  w)) as Hraise.
       { intros t. unfold reset_password.
         unfold bind at 1, get_current_user. rewrite Hcu, Hvalid. simpl.
         unfold bind at 1, get_store. now rewrite Huser. }
       rewrite (Hraise token1), (Hraise token2). auto. }
  destruct (verify_reset_token ext u (reset_token form) (utcnow w))
    as [[expired invalid] data] eqn:Hverdict.
  rewrite (reset_password_run ext _ token1 _ _ _ _ _ Hcu Hvalid Huser Hverdict).
  rewrite (reset_password_run ext _ token2 _ _ _ _ _ Hcu Hvalid Huser Hverdict).
  destruct invalid; [auto |]. destruct expired; [auto |].
  destruct (truthy data); [| simpl; auto].
  destruct (User_save ext _ (store w)); auto.
Qed.

(** X16. A reset that goes through stores the account with the new password
    and nothing else changed, flashes the confirmation and redirects to the
    login page; it does not start a session: the principal stays as it
    was. *)
Theorem reset_password_success form token w u data s' :
  is_anonymous (current_user w) = true ->
  reset_valid form = true ->
  filter_by_email_first ext (store w) (reset_email form) = Some u ->
  verify_reset_token ext u (reset_token form) (utcnow w) = (false, false, data) ->
  truthy data = true ->
  User_save ext (set_password u (reset_password_data form)) (store w) = Ok s' ->
  let run := reset_password ext form token w in
  let saved := set_password u (reset_password_data form) in
  fst run = Ok (redirect (url_for "auth.login" []))
  /\ store (snd run) = s'
  /\ current_user (snd run) = current_user w
  /\ sessions (trace (snd run)) = sessions (trace w)
  /\ saves (trace (snd run)) = (saves (trace w) ++ [saved])%list
  /\ flashes (trace (snd run))
     = (flashes (trace w) ++
        [(gettext ext "Your Password has been updated.", "success")])%list
  /\ password saved = reset_password_data form
  /\ username saved = username u /\ email saved = email u
  /\ date_joined saved = date_joined u
  /\ primary_group_id saved = primary_group_id u.
Proof.
  intros Hcu Hvalid Huser Hverdict Hdata Hsave run saved. subst run saved.
  rewrite (reset_password_run ext _ token _ _ _ _ _ Hcu Hvalid Huser Hverdict).
  rewrite Hdata, Hsave. simpl.
  rewrite sessions_app, saves_app, flashes_app. simpl.
  rewrite !app_nil_r. repeat split.
Qed.

(** X17. When the token service reports neither flag but hands back no
    payload (a falsy [data]), [reset_password] renders the form again
    without any message and without storing anything. *)
Theorem reset_password_without_payload form token w u data :
  is_anonymous (current_user w) = true ->
  reset_valid form = true ->
  filter_by_email_first ext (store w) (reset_email form) = Some u ->
  verify_reset_token ext u (reset_token form) (utcnow w) = (false, false, data) ->
  truthy data = false ->
  reset_password ext form token w =
    (Ok (render_template "auth/reset_password.html"
           (FReset (set_token form token))),
     after w [EvVerifyToken u (reset_token form)]).
Proof.
  intros Hcu Hvalid Huser Hverdict Hdata.
  rewrite (reset_password_run ext _ token _ _ _ _ _ Hcu Hvalid Huser Hverdict).
  now rewrite Hdata.
Qed.

(** X18. Whatever the request, [forgot_password] leaves the store, the
    principal and the clock as they were, posts nothing, saves nothing and
    starts no session. *)
Theorem forgot_password_frame form w :
  let run := forgot_password ext form w in
  store (snd run) = store w
  /\ current_user (snd run) = current_user w
  /\ utcnow (snd run) = utcnow w
  /\ posts (trace (snd run)) = posts (trace w)
  /\ saves (trace (snd run)) = saves (trace w)
  /\ sessions (trace (snd run)) = sessions (trace w).
Proof.
  cbv zeta.
  cbv beta iota zeta delta
    [forgot_password user_make_reset_token send_reset_token flash bind ret
     emit get_current_user get_store get_utcnow].
  destruct (is_anonymous (current_user w)); simpl; [| auto 10].
  destruct (forgot_valid form); simpl; [| auto 10].
  destruct (filter_by_email_first ext (store w) (forgot_email form)); simpl;
    unfold posts; rewrite <- ?app_assoc, ?omap_app, ?saves_app, ?sessions_app;
    simpl; rewrite ?app_nil_r; auto 10.
Qed.

(** X19. [reauth] makes the session fresh only through a validated form
    whose password passes [check_password]: a session that was not fresh
    is fresh afterwards exactly in that case, which is also the only case
    with the [Reauthenticated.] message; a wrong password flashes
    [Wrong password.] and renders the page again. *)
Theorem reauth_confirms_only_on_password member form next w :
  let run := reauth ext member false form next w in
  (reauth_valid form = true ->
   check_password member (reauth_password_data form) = true ->
   run = (Ok (reauth_redirect (next_or next (member_url member)), true),
          after w [EvFlash (gettext ext "Reauthenticated.") "success"]))
  /\ (reauth_valid form = true ->
      check_password member (reauth_password_data form) = false ->
      run = (Ok (reauth_template "auth/reauth.html" form, false),
             after w [EvFlash (gettext ext "Wrong password.") "danger"]))
  /\ (reauth_valid form = false ->
      run = (Ok (reauth_template "auth/reauth.html" form, false), w))
  /\ (forall view w', run = (Ok (view, true), w') ->
      reauth_valid form = true
      /\ check_password member (reauth_password_data form) = true).
Proof.
  cbv zeta. unfold reauth. simpl.
  destruct (reauth_valid form);
    destruct (check_password member (reauth_password_data form));
    (split; [| split; [| split]]);
    try (intros; discriminate); try (intros; same_world);
    intros view w' H; try (split; reflexivity);
    cbv beta iota delta [bind flash emit ret] in H; simpl in H; discriminate H.
Qed.

(** X20. Once a [reauth] request has gone through, the freshness it
    returns makes every further [reauth] request a plain redirect: whatever
    form comes with it, no password is checked and nothing is flashed. *)
Theorem reauth_once_is_enough member form next form' next' w :
  reauth_valid form = true ->
  check_password member (reauth_password_data form) = true ->
  let first := reauth ext member false form next w in
  exists view w1,
    first = (Ok (view, true), w1)
    /\ reauth ext member true form' next' w1
       = (Ok (reauth_redirect (next_or next' (member_url member)), true), w1).
Proof.
  intros Hvalid Hcheck first. subst first.
  unfold reauth at 1. simpl. rewrite Hvalid, Hcheck.
  eexists. eexists. split; [same_world | reflexivity].
Qed.

End FormsAndReset.

(** * The further properties on concrete requests *)

Section MoreRuns.

Import Demo DemoSession.

Ltac evaluated :=
  repeat match goal with
         | |- _ /\ _ => split
         | |- _ <> _ => vm_compute; discriminate
         | |- _ = _ => vm_compute; reflexivity
         end.

(** X4 at the login of [alice] with a [next] argument. *)
Lemma login_local_success_stays_local_witness :
  is_authenticated (current_user world0) = false
  /\ login_valid alice_form = true
  /\ User_authenticate (externals unreachable no_verdict) (store world0)
       (login_data alice_form) (password_data alice_form) = (Some alice, true)
  /\ fst (login (externals unreachable no_verdict) alice_form
            (Some "https://elsewhere.example/") world0)
     = Ok (redirect (url_raw "https://elsewhere.example/"))
  /\ posts (trace (snd (login (externals unreachable no_verdict) alice_form
                          (Some "https://elsewhere.example/") world0))) = [].
Proof.
  assert (is_authenticated (current_user world0) = false) as Hcu by evaluated.
  assert (login_valid alice_form = true) as Hvalid by evaluated.
  assert (User_authenticate (externals unreachable no_verdict) (store world0)
            (login_data alice_form) (password_data alice_form)
          = (Some alice, true)) as Hlocal by evaluated.
  pose proof (login_local_success_stays_local
                (externals unreachable no_verdict) alice_form
                (Some "https://elsewhere.example/") world0 alice
                Hcu Hvalid Hlocal) as H.
  cbv zeta in H. destruct H as (Hposts & _ & _ & _ & Hnext & _).
  assert ("https://elsewhere.example/" <> "") as Hne by evaluated.
  specialize (Hnext _ eq_refl Hne).
  split; [exact Hcu |]. split; [exact Hvalid |]. split; [exact Hlocal |].
  split; [exact Hnext | exact Hposts].
Defined.

(** X5 at the login of [nina], unknown locally and refused remotely. *)
Lemma login_rejection_changes_nothing_witness :
  locally_rejected (externals fail no_verdict) nina_form world0
  /\ remote_answer (externals fail no_verdict) nina_form
       (response 200 [("status", "FAIL")]) {[ "status" := VStr "FAIL" ]}
  /\ ({[ "status" := VStr "FAIL" ]} : gmap string pyval) !! "status"
     <> Some (VStr "OK")
  /\ store (snd (login (externals fail no_verdict) nina_form None world0))
     = [alice]
  /\ current_user (snd (login (externals fail no_verdict) nina_form None
                          world0)) = guest.
Proof.
  assert (locally_rejected (externals fail no_verdict) nina_form world0)
    as Hloc by (unfold locally_rejected; evaluated).
  assert (remote_answer (externals fail no_verdict) nina_form
            (response 200 [("status", "FAIL")]) {[ "status" := VStr "FAIL" ]})
    as Hrem by (unfold remote_answer, well_formed; evaluated).
  assert (({[ "status" := VStr "FAIL" ]} : gmap string pyval) !! "status"
          <> Some (VStr "OK")) as Hno by evaluated.
  pose proof (login_rejection_changes_nothing (externals fail no_verdict)
                nina_form None world0 _ _ Hloc Hrem Hno) as H.
  cbv zeta in H. destruct H as (Hstore & Hcu & _).
  split; [exact Hloc |]. split; [exact Hrem |]. split; [exact Hno |].
  split; [exact Hstore | exact Hcu].
Defined.

(** X6 at the login of [nina] under a new password: she has a local
    account, the remote service accepts, the storage refuses the second
    row. *)
Lemma login_provision_save_failure_witness :
  locally_rejected (strict_externals ok_nina no_verdict) nina_form world_known
  /\ remote_answer (strict_externals ok_nina no_verdict) nina_form
       (response 200 [("status", "OK"); ("email", "nina@x.com")])
       {[ "status" := VStr "OK"; "email" := VStr "nina@x.com" ]}
  /\ fst (login (strict_externals ok_nina no_verdict) nina_form None
            world_known) = Raise (External "IntegrityError")
  /\ current_user (snd (login (strict_externals ok_nina no_verdict) nina_form
                          None world_known)) = guest
  /\ store (snd (login (strict_externals ok_nina no_verdict) nina_form None
                   world_known)) = store world_known.
Proof.
  assert (locally_rejected (strict_externals ok_nina no_verdict) nina_form
            world_known) as Hloc by (unfold locally_rejected; evaluated).
  assert (remote_answer (strict_externals ok_nina no_verdict) nina_form
            (response 200 [("status", "OK"); ("email", "nina@x.com")])
            {[ "status" := VStr "OK"; "email" := VStr "nina@x.com" ]}) as Hrem
    by (unfold remote_answer, well_formed; evaluated).
  assert (({[ "status" := VStr "OK"; "email" := VStr "nina@x.com" ]}
            : gmap string pyval) !! "status" = Some (VStr "OK")) as Hok
    by evaluated.
  assert (User_save (strict_externals ok_nina no_verdict)
            (provisioned nina_form
               {[ "status" := VStr "OK"; "email" := VStr "nina@x.com" ]}
               (utcnow world_known)) (store world_known)
          = Raise (External "IntegrityError")) as Hsave by evaluated.
  pose proof (login_provision_save_failure (strict_externals ok_nina no_verdict)
                nina_form None world_known _ _ _ Hloc Hrem Hok Hsave) as H.
  cbv zeta in H. destruct H as (Hraise & Hstore & Hcu & _).
  split; [exact Hloc |]. split; [exact Hrem |]. split; [exact Hraise |].
  split; [exact Hcu | exact Hstore].
Defined.

(** X7 at the login of [nina] while the remote service cannot be
    reached. *)
Lemma login_remote_unreachable_witness :
  locally_rejected (externals unreachable no_verdict) nina_form world0
  /\ fst (login (externals unreachable no_verdict) nina_form None world0)
     = Raise (External "ConnectionError")
  /\ flashes (trace (snd (login (externals unreachable no_verdict) nina_form
                            None world0))) = [].
Proof.
  assert (locally_rejected (externals unreachable no_verdict) nina_form world0)
    as Hloc by (unfold locally_rejected; evaluated).
  assert (requests_post (externals unreachable no_verdict)
            (CABINET_AUTH (externals unreachable no_verdict))
            (auth_payload (login_data nina_form) (password_data nina_form))
          = Raise (External "ConnectionError")) as Hpost by evaluated.
  pose proof (login_remote_unreachable (externals unreachable no_verdict)
                nina_form None world0 _ Hloc Hpost) as H.
  split; [exact Hloc |]. rewrite H. split; reflexivity.
Defined.

(** X8 at the login of [nina] while the remote endpoint answers 200 with an
    HTML page. *)
Lemma login_remote_body_not_an_object_witness :
  locally_rejected (externals not_json no_verdict) nina_form world0
  /\ status_code {| status_code := 200; text := "<html>502</html>" |} = 200
  /\ text {| status_code := 200; text := "<html>502</html>" |} <> ""
  /\ fst (login (externals not_json no_verdict) nina_form None world0)
     = Raise (ValueError "No JSON object could be decoded").
Proof.
  assert (locally_rejected (externals not_json no_verdict) nina_form world0)
    as Hloc by (unfold locally_rejected; evaluated).
  assert (requests_post (externals not_json no_verdict)
            (CABINET_AUTH (externals not_json no_verdict))
            (auth_payload (login_data nina_form) (password_data nina_form))
          = Ok {| status_code := 200; text := "<html>502</html>" |}) as Hpost
    by evaluated.
  assert (status_code {| status_code := 200; text := "<html>502</html>" |}
          = 200) as Hcode by evaluated.
  assert (text {| status_code := 200; text := "<html>502</html>" |} <> "")
    as Htext by evaluated.
  pose proof (login_remote_body_not_an_object (externals not_json no_verdict)
                nina_form None world0 _ Hloc Hpost Hcode Htext) as H.
  cbv zeta in H. destruct H as (Hjson & _).
  assert (json_loads (externals not_json no_verdict)
            (text {| status_code := 200; text := "<html>502</html>" |})
          = Raise (ValueError "No JSON object could be decoded")) as Hloads
    by evaluated.
  specialize (Hjson _ Hloads).
  split; [exact Hloc |]. split; [exact Hcode |]. split; [exact Htext |].
  rewrite Hjson. reflexivity.
Defined.

(** X9 at the mirror call for [bob], refused by the remote service. *)
Lemma create_cabinet_user_well_formed_witness :
  well_formed (externals fail no_verdict)
    (CABINET_REGISTER (externals fail no_verdict))
    (register_payload "bob" "pw" (VStr "bob@x.com"))
    (response 200 [("status", "FAIL")]) {[ "status" := VStr "FAIL" ]}
  /\ fst (create_cabinet_user (externals fail no_verdict) "bob" "pw"
            (VStr "bob@x.com") world_bob) = Ok false.
Proof.
  assert (well_formed (externals fail no_verdict)
            (CABINET_REGISTER (externals fail no_verdict))
            (register_payload "bob" "pw" (VStr "bob@x.com"))
            (response 200 [("status", "FAIL")]) {[ "status" := VStr "FAIL" ]})
    as Hwf by (unfold well_formed; evaluated).
  pose proof (create_cabinet_user_well_formed (externals fail no_verdict)
                "bob" "pw" (VStr "bob@x.com") _ _ world_bob Hwf) as H.
  destruct H as (ok & logged & Hrun & Hok & _).
  split; [exact Hwf |]. rewrite Hrun. simpl.
  destruct ok; [| reflexivity].
  destruct Hok as (Hok & _). specialize (Hok eq_refl).
  vm_compute in Hok. discriminate Hok.
Defined.

(** X10 at the mirror call for [bob], answered [201 Created] with a body
    that says [OK]. *)
Lemma create_cabinet_user_transport_failure_witness :
  requests_post (externals created no_verdict)
    (CABINET_REGISTER (externals created no_verdict))
    (register_payload "bob" "pw" (VStr "bob@x.com"))
  = Ok (response 201 [("status", "OK")])
  /\ status_code (response 201 [("status", "OK")]) <> 200
  /\ json_loads (externals created no_verdict)
       (text (response 201 [("status", "OK")]))
     = Ok (VDict {[ "status" := VStr "OK" ]})
  /\ fst (create_cabinet_user (externals created no_verdict) "bob" "pw"
            (VStr "bob@x.com") world_bob) = Ok false.
Proof.
  assert (requests_post (externals created no_verdict)
            (CABINET_REGISTER (externals created no_verdict))
            (register_payload "bob" "pw" (VStr "bob@x.com"))
          = Ok (response 201 [("status", "OK")])) as Hpost by evaluated.
  assert (status_code (response 201 [("status", "OK")]) <> 200) as Hcode
    by evaluated.
  pose proof (create_cabinet_user_transport_failure
                (externals created no_verdict) "bob" "pw" (VStr "bob@x.com")
                _ world_bob Hpost (or_introl Hcode)) as H.
  split; [exact Hpost |]. split; [exact Hcode |].
  split; [vm_compute; reflexivity |]. rewrite H. reflexivity.
Defined.

(** X11 at the registration of [bob] while the remote service cannot be
    reached. *)
Lemma register_mirror_unreachable_witness :
  is_authenticated (current_user world0) = false
  /\ register_valid bob_form = true
  /\ fst (register (externals unreachable no_verdict) bob_form world0)
     = Raise (External "ConnectionError")
  /\ store (snd (register (externals unreachable no_verdict) bob_form world0))
     = [alice; bob]
  /\ current_user (snd (register (externals unreachable no_verdict) bob_form
                          world0)) = guest.
Proof.
  assert (is_authenticated (current_user world0) = false) as Hcu by evaluated.
  assert (register_valid bob_form = true) as Hvalid by evaluated.
  assert (RegisterForm_save (externals unreachable no_verdict)
            (register_form (externals unreachable no_verdict) bob_form)
            (store world0) = Ok (bob, [alice; bob])) as Hsave by evaluated.
  assert (requests_post (externals unreachable no_verdict)
            (CABINET_REGISTER (externals unreachable no_verdict))
            (register_payload (username bob) (password bob) (email bob))
          = Raise (External "ConnectionError")) as Hpost by evaluated.
  pose proof (register_mirror_unreachable (externals unreachable no_verdict)
                bob_form world0 bob [alice; bob] _ Hcu Hvalid Hsave Hpost) as H.
  split; [exact Hcu |]. split; [exact Hvalid |].
  rewrite H. repeat split.
Defined.

(** X12 at a registration under the username of [alice], which the storage
    refuses. *)
Lemma register_save_failure_witness :
  is_authenticated (current_user world0) = false
  /\ register_valid alice_again = true
  /\ register (strict_externals ok_nina no_verdict) alice_again world0
     = (Raise (External "IntegrityError"), world0).
Proof.
  assert (is_authenticated (current_user world0) = false) as Hcu by evaluated.
  assert (register_valid alice_again = true) as Hvalid by evaluated.
  assert (RegisterForm_save (strict_externals ok_nina no_verdict)
            (register_form (strict_externals ok_nina no_verdict) alice_again)
            (store world0) = Raise (External "IntegrityError")) as Hsave
    by evaluated.
  pose proof (register_save_failure (strict_externals ok_nina no_verdict)
                alice_again world0 _ Hcu Hvalid Hsave) as H.
  split; [exact Hcu |]. split; [exact Hvalid | exact H].
Defined.

(** X13 at the registration of [bob], refused by the remote service. *)
Lemma register_call_order_witness :
  is_authenticated (current_user world0) = false
  /\ register_valid bob_form = true
  /\ exists logs,
       trace (snd (register (externals fail no_verdict) bob_form world0))
       = ([EvFormSave bob;
           EvPost "https://cabinet.example/register"
             (register_payload "bob" "pw" (VStr "bob@x.com"))]
          ++ logs ++
          [EvLoginUser bob (VBool false);
           EvFlash "Thanks for registering." "success"])%list
       /\ forallb is_log logs = true.
Proof.
  assert (is_authenticated (current_user world0) = false) as Hcu by evaluated.
  assert (register_valid bob_form = true) as Hvalid by evaluated.
  assert (RegisterForm_save (externals fail no_verdict)
            (register_form (externals fail no_verdict) bob_form)
            (store world0) = Ok (bob, [alice; bob])) as Hsave by evaluated.
  assert (create_cabinet_user (externals fail no_verdict) (username bob)
            (password bob) (email bob)
            (mkWorld [alice; bob] (current_user world0) (utcnow world0)
               (trace world0 ++ [EvFormSave bob])%list)
          = (Ok false,
             snd (create_cabinet_user (externals fail no_verdict) "bob" "pw"
                    (VStr "bob@x.com") world_bob))) as Hmirror by evaluated.
  pose proof (register_call_order (externals fail no_verdict) bob_form world0
                bob [alice; bob] false _ Hcu Hvalid Hsave Hmirror) as H.
  split; [exact Hcu |]. split; [exact Hvalid |]. exact H.
Defined.

(** X14 at plain page requests by a guest. *)
Lemma unvalidated_forms_only_render_witness :
  is_authenticated (current_user world0) = false
  /\ is_anonymous (current_user world0) = true
  /\ snd (login (externals unreachable no_verdict) blank_login None world0)
     = world0
  /\ snd (register (externals unreachable no_verdict) blank_register world0)
     = world0
  /\ snd (forgot_password (externals unreachable no_verdict) blank_forgot
            world0) = world0
  /\ reset_password (externals unreachable no_verdict) blank_reset
       "token-in-url" world0
     = (Ok (render_template "auth/reset_password.html"
              (FReset {| reset_valid := false; reset_token := "token-in-url";
                         reset_email := ""; reset_password_data := "" |})),
        world0).
Proof.
  assert (is_authenticated (current_user world0) = false) as Hauth
    by evaluated.
  assert (is_anonymous (current_user world0) = true) as Hanon by evaluated.
  pose proof (unvalidated_forms_only_render (externals unreachable no_verdict)
                world0 blank_login None blank_register blank_forgot
                blank_reset "token-in-url") as H.
  destruct H as (H1 & H2).
  destruct (H1 Hauth) as (Hlogin & Hregister).
  destruct (H2 Hanon) as (Hforgot & Hreset).
  split; [exact Hauth |]. split; [exact Hanon |].
  rewrite (Hlogin eq_refl), (Hregister eq_refl), (Hforgot eq_refl),
    (Hreset eq_refl).
  repeat split.
Defined.

(** X16 at the reset of the password of [alice] with a good token. *)
Lemma reset_password_success_witness :
  is_anonymous (current_user world0) = true
  /\ reset_valid (reset_form "alice@x.com") = true
  /\ fst (reset_password (externals fail no_verdict)
            (reset_form "alice@x.com") "token-in-url" world0)
     = Ok (redirect (url_for "auth.login" []))
  /\ store (snd (reset_password (externals fail no_verdict)
                   (reset_form "alice@x.com") "token-in-url" world0))
     = [{| username := "alice"; email := VStr "alice@x.com";
           password := "fresh"; date_joined := 10; primary_group_id := 4 |}]
  /\ current_user (snd (reset_password (externals fail no_verdict)
                          (reset_form "alice@x.com") "token-in-url" world0))
     = guest.
Proof.
  assert (is_anonymous (current_user world0) = true) as Hcu by evaluated.
  assert (reset_valid (reset_form "alice@x.com") = true) as Hvalid
    by evaluated.
  assert (filter_by_email_first (externals fail no_verdict) (store world0)
            (reset_email (reset_form "alice@x.com")) = Some alice) as Huser
    by evaluated.
  assert (verify_reset_token (externals fail no_verdict) alice
            (reset_token (reset_form "alice@x.com")) (utcnow world0)
          = (false, false, VBool true)) as Hverdict by evaluated.
  assert (truthy (VBool true) = true) as Hdata by evaluated.
  assert (User_save (externals fail no_verdict)
            (set_password alice (reset_password_data (reset_form "alice@x.com")))
            (store world0)
          = Ok [{| username := "alice"; email := VStr "alice@x.com";
                   password := "fresh"; date_joined := 10;
                   primary_group_id := 4 |}]) as Hsave by evaluated.
  pose proof (reset_password_success (externals fail no_verdict)
                (reset_form "alice@x.com") "token-in-url" world0 alice
                (VBool true) _ Hcu Hvalid Huser Hverdict Hdata Hsave) as H.
  cbv zeta in H. destruct H as (Hview & Hstore & Hprincipal & _).
  split; [exact Hcu |]. split; [exact Hvalid |]. split; [exact Hview |].
  split; [exact Hstore | exact Hprincipal].
Defined.

(** X17 at a reset for [alice] whose token checks out but carries no
    payload. *)
Lemma reset_password_without_payload_witness :
  is_anonymous (current_user world0) = true
  /\ reset_valid (reset_form "alice@x.com") = true
  /\ truthy VNone = false
  /\ user_visible (reset_password (externals fail (false, false, VNone))
                     (reset_form "alice@x.com") "token-in-url" world0)
     = (Ok (render_template "auth/reset_password.html"
              (FReset {| reset_valid := true; reset_token := "token-in-url";
                         reset_email := "alice@x.com";
                         reset_password_data := "fresh" |})),
        [], guest).
Proof.
  assert (is_anonymous (current_user world0) = true) as Hcu by evaluated.
  assert (reset_valid (reset_form "alice@x.com") = true) as Hvalid
    by evaluated.
  assert (filter_by_email_first (externals fail (false, false, VNone))
            (store world0) (reset_email (reset_form "alice@x.com"))
          = Some alice) as Huser by evaluated.
  assert (verify_reset_token (externals fail (false, false, VNone)) alice
            (reset_token (reset_form "alice@x.com")) (utcnow world0)
          = (false, false, VNone)) as Hverdict by evaluated.
  assert (truthy VNone = false) as Hdata by evaluated.
  pose proof (reset_password_without_payload
                (externals fail (false, false, VNone))
                (reset_form "alice@x.com") "token-in-url" world0 alice VNone
                Hcu Hvalid Huser Hverdict Hdata) as H.
  split; [exact Hcu |]. split; [exact Hvalid |]. split; [exact Hdata |].
  rewrite H. reflexivity.
Defined.

(** X19 at two re-authentications of [alice]: with her password and with
    another one. *)
Lemma reauth_confirms_only_on_password_witness :
  reauth_valid (reauth_form "secret") = true
  /\ check_password alice_member (reauth_password_data (reauth_form "secret"))
     = true
  /\ check_password alice_member (reauth_password_data (reauth_form "guess"))
     = false
  /\ reauth (externals unreachable no_verdict) alice_member false
       (reauth_form "secret") (Some "/admin") (world_of (principal_of alice))
     = (Ok (reauth_redirect (url_raw "/admin"), true),
        after (world_of (principal_of alice))
          [EvFlash "Reauthenticated." "success"])
  /\ reauth (externals unreachable no_verdict) alice_member false
       (reauth_form "guess") (Some "/admin") (world_of (principal_of alice))
     = (Ok (reauth_template "auth/reauth.html" (reauth_form "guess"), false),
        after (world_of (principal_of alice))
          [EvFlash "Wrong password." "danger"]).
Proof.
  assert (reauth_valid (reauth_form "secret") = true) as Hvalid by evaluated.
  assert (check_password alice_member
            (reauth_password_data (reauth_form "secret")) = true) as Hgood
    by evaluated.
  assert (check_password alice_member
            (reauth_password_data (reauth_form "guess")) = false) as Hbad
    by evaluated.
  pose proof (reauth_confirms_only_on_password
                (externals unreachable no_verdict) alice_member
                (reauth_form "secret") (Some "/admin")
                (world_of (principal_of alice))) as H1.
  pose proof (reauth_confirms_only_on_password
                (externals unreachable no_verdict) alice_member
                (reauth_form "guess") (Some "/admin")
                (world_of (principal_of alice))) as H2.
  cbv zeta in H1, H2.
  destruct H1 as (Hconfirm & _). destruct H2 as (_ & Hwrong & _).
  split; [exact Hvalid |]. split; [exact Hgood |]. split; [exact Hbad |].
  split; [exact (Hconfirm Hvalid Hgood) | exact (Hwrong eq_refl Hbad)].
Defined.

(** X20 at a re-authentication of [alice] followed by a second request with
    a wrong password. *)
Lemma reauth_once_is_enough_witness :
  reauth_valid (reauth_form "secret") = true
  /\ check_password alice_member (reauth_password_data (reauth_form "secret"))
     = true
  /\ exists view w1,
       reauth (externals unreachable no_verdict) alice_member false
         (reauth_form "secret") None (world_of (principal_of alice))
       = (Ok (view, true), w1)
       /\ reauth (externals unreachable no_verdict) alice_member true
            (reauth_form "guess") None w1
          = (Ok (reauth_redirect
                   (url_for "user.profile" [("username", "alice")]), true),
             w1).
Proof.
  assert (reauth_valid (reauth_form "secret") = true) as Hvalid by evaluated.
  assert (check_password alice_member
            (reauth_password_data (reauth_form "secret")) = true) as Hgood
    by evaluated.
  pose proof (reauth_once_is_enough (externals unreachable no_verdict)
                alice_member (reauth_form "secret") None (reauth_form "guess")
                None (world_of (principal_of alice)) Hvalid Hgood) as H.
  split; [exact Hvalid |]. split; [exact Hgood |]. exact H.
Defined.

End MoreRuns.
